(** * Display logic of the demand-forecasting dashboard

    A shallow embedding of the client-side computations found in
    [frontend/src/pages/Forecasts.jsx] (the forecast view and the
    multi-region view), [frontend/src/components/Header.jsx] and
    [frontend/src/utils/alerts.js], followed by the properties the
    specification states about them.

    JavaScript numbers are IEEE 754 binary64 values.  They are modelled by
    [spec_float] with the standard library's executable specification of the
    binary64 operations, so that every rounding step of the source
    ([toFixed], [Math.round], the products by decimal constants) is the one
    the browser performs. *)

From Stdlib Require Import ZArith Bool String List Lia SpecFloat.
From stdpp Require Import base option list gmap strings pretty.

(** ** JavaScript numbers *)

Module Num.

Local Open Scope Z_scope.

Definition prec : Z := 53.
Definition emax : Z := 1024.

Abbreviation number := spec_float.

(** The double nearest to the rational [n / d] (ties to even): how a decimal
    literal of the source, or the decimal string produced by [toFixed], is
    read back as a number. *)
Definition of_ratio (n : Z) (d : positive) : number :=
  match n with
  | Z0 => S754_zero false
  | Zpos p =>
      let '(q, e, l) := SFdiv_core_binary prec emax (Zpos p) 0 (Zpos d) 0 in
      binary_round_aux prec emax false q e l
  | Zneg p =>
      let '(q, e, l) := SFdiv_core_binary prec emax (Zpos p) 0 (Zpos d) 0 in
      binary_round_aux prec emax true q e l
  end.

(** The literal with digits [n] and [k] digits after the point. *)
Definition dec (n : Z) (k : nat) : number := of_ratio n (Z.to_pos (10 ^ Z.of_nat k)).
Definition of_Z (n : Z) : number := of_ratio n 1.
Definition of_nat (n : nat) : number := of_Z (Z.of_nat n).

Definition NaN : number := S754_nan.

Definition add : number → number → number := SFadd prec emax.
Definition sub : number → number → number := SFsub prec emax.
Definition mul : number → number → number := SFmul prec emax.
Definition div : number → number → number := SFdiv prec emax.
Definition neg : number → number := SFopp.

(** [a < b], [a <= b], [a > b], [a >= b]; every comparison with NaN is false. *)
Definition lt (a b : number) : bool := SFltb a b.
Definition le (a b : number) : bool := SFleb a b.
Definition gt (a b : number) : bool := SFltb b a.
Definition ge (a b : number) : bool := SFleb b a.

(** ToBoolean on a number: [0], [-0] and [NaN] are falsy. *)
Definition truthy (x : number) : bool :=
  match x with
  | S754_zero _ | S754_nan => false
  | _ => true
  end.

(** [x || y] where [x] may be [undefined] (a missing field, an index out of
    range). *)
Definition or_else (x : option number) (y : number) : number :=
  match x with
  | Some v => if truthy v then v else y
  | None => y
  end.

(** A finite double [m * 2^e] as an exact fraction [num / den]. *)
Definition num_of (m : positive) (e : Z) : Z :=
  match e with Zpos _ => Zpos m * 2 ^ e | _ => Zpos m end.
Definition den_of (e : Z) : Z :=
  match e with Zneg _ => 2 ^ (- e) | _ => 1 end.

(** [Math.round]: the nearest integer, ties towards +infinity; a negative
    argument that rounds to zero gives [-0]. *)
Definition Math_round (x : number) : number :=
  match x with
  | S754_finite s m e =>
      let n := (2 * (if s then - num_of m e else num_of m e) + den_of e)
                 / (2 * den_of e) in
      if n =? 0 then S754_zero s else of_Z n
  | _ => x
  end.

(** [Math.max] and [Math.min]: NaN if either argument is NaN, and [-0] is
    below [+0]. *)
Definition Math_max (a b : number) : number :=
  match a, b with
  | S754_nan, _ | _, S754_nan => S754_nan
  | S754_zero sa, S754_zero sb => S754_zero (sa && sb)
  | _, _ => if SFltb a b then b else a
  end.

Definition Math_min (a b : number) : number :=
  match a, b with
  | S754_nan, _ | _, S754_nan => S754_nan
  | S754_zero sa, S754_zero sb => S754_zero (sa || sb)
  | _, _ => if SFltb b a then b else a
  end.

(** [Number(x.toFixed(2))].  [toFixed(2)] picks the integer [n] for which
    [n / 100] is closest to the exact value of [|x|], the larger one on a
    tie, prints it with two decimals behind the sign of [x], and [Number]
    reads the string back.  From [10^21] on [toFixed] prints the shortest
    round-tripping form, which reads back as [x]; NaN and the infinities
    print as such. *)
Definition toFixed2 (x : number) : number :=
  match x with
  | S754_zero _ => S754_zero false
  | S754_finite s m e =>
      if 10 ^ 21 * den_of e <=? num_of m e then x
      else
        let n := (2 * 100 * num_of m e + den_of e) / (2 * den_of e) in
        if n =? 0 then S754_zero s
        else of_ratio (if s then - n else n) 100
  | _ => x
  end.

End Num.

Import Num.

Declare Scope num_scope.
Delimit Scope num_scope with num.
Infix "+" := Num.add : num_scope.
Infix "-" := Num.sub : num_scope.
Infix "*" := Num.mul : num_scope.
Infix "/" := Num.div : num_scope.

(** ** Awaited requests and component effects

    The HTTP client ([services/api]) is outside the modelled sources: a
    request is represented by its outcome.  A rejected promise carries the
    [message] of the error it rejects with. *)

Inductive outcome (A : Type) : Type :=
  | Resolved (value : A)
  | Rejected (message : string).
Arguments Resolved {A} value.
Arguments Rejected {A} message.

(** An [async] handler over a component state [S]: it updates the state and
    either completes with a value or throws. *)
Module Eff.
Section Eff.
Context {S : Type}.

Definition t (A : Type) : Type := S → (string + A) * S.

Definition ret {A} (a : A) : t A := λ s, (inr a, s).

Definition bind {A B} (c : t A) (k : A → t B) : t B :=
  λ s, match c s with
       | (inr a, s') => k a s'
       | (inl err, s') => (inl err, s')
       end.

(** A state setter such as [setError(...)]. *)
Definition set (f : S → S) : t unit := λ s, (inr tt, f s).

(** The current state. *)
Definition get : t S := λ s, (inr s, s).

(** [await p]: the value of a resolved promise, a throw on rejection. *)
Definition await {A} (p : outcome A) : t A :=
  λ s, match p with
       | Resolved v => (inr v, s)
       | Rejected msg => (inl msg, s)
       end.

(** [try { body } catch (err) { handler(err.message) } finally { final }] *)
Definition try_catch_finally {A} (body : t A) (handler : string → t A)
    (final : t unit) : t A :=
  λ s,
    let '(r, s1) :=
      match body s with
      | (inr a, s') => (inr a, s')
      | (inl err, s') => handler err s'
      end in
    match final s1 with
    | (inr _, s2) => (r, s2)
    | (inl err, s2) => (inl err, s2)
    end.
End Eff.
End Eff.

#[global] Instance eff_ret {S} : MRet (@Eff.t S) := @Eff.ret S.
#[global] Instance eff_bind {S} : MBind (@Eff.t S) := λ A B k c, Eff.bind c k.

(** ** [pages/Forecasts.jsx]: the forecast view *)

Module Metric.
Record pie_entry := { name : string; value : number }.
Record t := {
  id : string;
  title : string;
  unit : string;
  current : number;
  forecast : list number;
  pie : list pie_entry;
}.
End Metric.

(** A row of the built-in sample table, before gap, status and band are
    added to it. *)
Module Sample.
Record t := {
  date : string;
  forecast : number;
  capacity : number;
  lower : number;
  upper : number;
}.
End Sample.

Module CapacityRow.
Record t := {
  date : string;
  forecast : number;
  capacity : number;
  lower : number;
  upper : number;
  gap : number;
  status : string;
  band : number;
}.
End CapacityRow.

(** The responses of the backend, with the fields the view reads; a field
    the response lacks is [None]. *)
Record ForecastResponse := {
  predictions : option (list number);
  predictions_cpu : option (list number);
}.

Record CapacityResponse := {
  capacity : option number;
  avg_forecast : option number;
}.

Record WhatIfResponse := {
  base_cpu : option (list number);
  simulated_cpu : option (list number);
  base_storage : option (list number);
  simulated_storage : option (list number);
}.

(** A region snapshot of the multi-region endpoint. *)
Module Region.
Record t := {
  name : string;
  cpuUsage : number;
  storageUsage : number;
  forecast : list number;
}.
End Region.

Record MultiRegionResponse := {
  regions : option (list Region.t);
}.

(** An entry of the notification popover. *)
Module Notification.
Record t := {
  type : string;
  message : string;
  severity : string;
}.
End Notification.

(** The [alerts] field of the alerts response: an array, or any other value
    ([undefined], [null], a string, an object). *)
Inductive alerts_field : Type :=
  | alerts_array (items : list Notification.t)
  | alerts_not_array.

Record AlertsResponse := {
  alerts : alerts_field;
}.

(** What the requests of [services/api] answer. *)
Record Api := {
  fetchForecast7 : outcome ForecastResponse;
  fetchCapacityPlanning : number → number → outcome CapacityResponse;
  fetchMultiRegion : outcome MultiRegionResponse;
  fetchAlerts : number → outcome AlertsResponse;
}.

(** ** [utils/alerts.js] *)

Module Alerts.
(** A call [toast.error(message, options)]; the message interpolates
    exactly these three values. *)
Record toast := {
  resource : string;
  usage : number;
  threshold : number;
}.

Definition showHighRiskAlert (resource : string) (usage threshold : number)
    : list toast :=
  [ {| resource := resource; usage := usage; threshold := threshold |} ].
End Alerts.

Module Forecasts.

Local Open Scope string_scope.

(** [Array(n).fill(0)] *)
Definition Array_fill_0 (n : nat) : list number := replicate n (of_Z 0).

Definition generateCapacityData : list Sample.t :=
  let base := of_Z 120 in
  let row d f c l u :=
    {| Sample.date := d; Sample.forecast := f; Sample.capacity := c;
       Sample.lower := l; Sample.upper := u |} in
  [ row "Week 1" base (base + of_Z 35)%num (base - of_Z 20)%num (base + of_Z 15)%num;
    row "Week 2" (base + of_Z 15)%num (base + of_Z 20)%num (base - of_Z 10)%num (base + of_Z 25)%num;
    row "Week 3" (base + of_Z 30)%num (base + of_Z 30)%num base (base + of_Z 35)%num;
    row "Week 4" (base + of_Z 50)%num (base + of_Z 45)%num (base + of_Z 10)%num (base + of_Z 45)%num ].

Definition getRisk (forecast capacity : number) : string :=
  let gap := (capacity - forecast)%num in
  if ge gap (dec 1 1 * forecast)%num then "Sufficient"
  else if lt gap (neg (dec 5 2) * forecast)%num then "Shortage"
  else "Over / Slight risk".

Definition placeholder_pie : list Metric.pie_entry :=
  [ {| Metric.name := "Used"; Metric.value := of_Z 0 |};
    {| Metric.name := "Remaining"; Metric.value := of_Z 100 |} ].

(** The pie of the storage and network metrics; [floor] is [0.1] for
    storage and [1] for network. *)
Definition share_pie (floor current : number) (forecast : list number)
    : list Metric.pie_entry :=
  let next := or_else (last forecast) current in
  let usedPercent := Math_round ((current / Math_max floor next) * of_Z 100)%num in
  [ {| Metric.name := "Used"; Metric.value := Math_min (of_Z 100) usedPercent |};
    {| Metric.name := "Remaining";
       Metric.value := Math_max (of_Z 0) (of_Z 100 - usedPercent)%num |} ].

Definition metrics (forecastData : option (list number)) : list Metric.t :=
  let placeholder :=
    [ {| Metric.id := "cpu"; Metric.title := "CPU Demand"; Metric.unit := "%";
         Metric.current := of_Z 0; Metric.forecast := Array_fill_0 7;
         Metric.pie := placeholder_pie |};
      {| Metric.id := "storage"; Metric.title := "Storage Usage"; Metric.unit := "TB";
         Metric.current := of_Z 0; Metric.forecast := Array_fill_0 7;
         Metric.pie := placeholder_pie |};
      {| Metric.id := "network"; Metric.title := "Network Bandwidth"; Metric.unit := "Mbps";
         Metric.current := of_Z 0; Metric.forecast := Array_fill_0 7;
         Metric.pie := placeholder_pie |} ] in
  match forecastData with
  | None => placeholder
  | Some data =>
      if (length data =? 0)%nat then placeholder
      else
        let cpuForecast := toFixed2 <$> take 7 data in
        let cpuCurrent := or_else (cpuForecast !! 0%nat) (of_Z 0) in
        let storageCurrent := toFixed2 (cpuCurrent * dec 1 2 * dec 25 1)%num in
        let storageForecast :=
          (λ cpu, toFixed2 (cpu * dec 1 2 * dec 25 1)%num) <$> cpuForecast in
        let netCurrent := toFixed2 (cpuCurrent * of_Z 10)%num in
        let netForecast := (λ cpu, toFixed2 (cpu * of_Z 10)%num) <$> cpuForecast in
        [ {| Metric.id := "cpu"; Metric.title := "CPU Demand"; Metric.unit := "%";
             Metric.current := cpuCurrent; Metric.forecast := cpuForecast;
             Metric.pie :=
               [ {| Metric.name := "Used"; Metric.value := cpuCurrent |};
                 {| Metric.name := "Remaining";
                    Metric.value := Math_max (of_Z 0) (of_Z 100 - cpuCurrent)%num |} ] |};
          {| Metric.id := "storage"; Metric.title := "Storage Usage"; Metric.unit := "TB";
             Metric.current := storageCurrent; Metric.forecast := storageForecast;
             Metric.pie := share_pie (dec 1 1) storageCurrent storageForecast |};
          {| Metric.id := "network"; Metric.title := "Network Bandwidth"; Metric.unit := "Mbps";
             Metric.current := netCurrent; Metric.forecast := netForecast;
             Metric.pie := share_pie (of_Z 1) netCurrent netForecast |} ]
  end.

Definition capacityRows (capacityData : option CapacityResponse)
    (forecastData : option (list number)) : list CapacityRow.t :=
  match capacityData, forecastData with
  | Some cd, Some data =>
      let weeks := ["Week 1"; "Week 2"; "Week 3"; "Week 4"] in
      let capacity := or_else (capacity cd) (of_Z 10000) in
      let avgForecast := or_else (avg_forecast cd) (of_Z 0) in
      imap (λ idx week,
              let forecast := or_else (data !! idx) avgForecast in
              let weekCapacity := (capacity + of_nat idx * of_Z 100)%num in
              {| CapacityRow.date := week;
                 CapacityRow.forecast := toFixed2 forecast;
                 CapacityRow.capacity := weekCapacity;
                 CapacityRow.lower := toFixed2 (forecast * dec 85 2)%num;
                 CapacityRow.upper := toFixed2 (forecast * dec 115 2)%num;
                 CapacityRow.band := toFixed2 (forecast * dec 3 1)%num;
                 CapacityRow.gap := toFixed2 (weekCapacity - forecast)%num;
                 CapacityRow.status := getRisk forecast weekCapacity |})
           weeks
  | _, _ =>
      let fallback := generateCapacityData in
      (λ d, {| CapacityRow.date := Sample.date d;
               CapacityRow.forecast := Sample.forecast d;
               CapacityRow.capacity := Sample.capacity d;
               CapacityRow.lower := Sample.lower d;
               CapacityRow.upper := Sample.upper d;
               CapacityRow.gap := (Sample.capacity d - Sample.forecast d)%num;
               CapacityRow.status := getRisk (Sample.forecast d) (Sample.capacity d);
               CapacityRow.band := Math_round (Sample.forecast d * dec 3 1)%num |})
        <$> fallback
  end.

(** The simulated values of the what-if panel. *)
Record WhatIf := {
  baseCpu : number;
  baseStorage : number;
  simulatedCpu : number;
  simulatedStorage : number;
}.

Definition by_id (key : string) (m : Metric.t) : bool := String.eqb (Metric.id m) key.

Definition whatIfResults (metrics : list Metric.t)
    (workloadDelta trafficDelta : number)
    (whatIfBackend : option WhatIfResponse) : option WhatIf :=
  match find (by_id "cpu") metrics, find (by_id "storage") metrics with
  | Some cpuMetric, Some storageMetric =>
      let baseCpu :=
        default (Metric.current cpuMetric) (last (Metric.forecast cpuMetric)) in
      let baseStorage :=
        default (Metric.current storageMetric) (last (Metric.forecast storageMetric)) in
      let cpuFactor := (of_Z 1 + workloadDelta / of_Z 100)%num in
      let storageFactor := (of_Z 1 + trafficDelta / of_Z 100)%num in
      let simulatedCpu := toFixed2 (baseCpu * cpuFactor)%num in
      let simulatedStorage := toFixed2 (baseStorage * storageFactor)%num in
      let beSimCpu : option number :=
        r ← whatIfBackend; series ← simulated_cpu r; last series in
      let beSimStorage : option number :=
        r ← whatIfBackend; series ← simulated_storage r; last series in
      Some {| baseCpu := baseCpu; baseStorage := baseStorage;
              simulatedCpu := default simulatedCpu beSimCpu;
              simulatedStorage := default simulatedStorage beSimStorage |}
  | _, _ => None
  end.

(** The effect that raises the high-risk notifications: the toasts one run
    of it emits, in order.  Its two [if] statements are [week4Alert] and
    [cpuAlert]. *)
Definition week4Alert (capacityRows : list CapacityRow.t) : list Alerts.toast :=
  match find (λ r, String.eqb (CapacityRow.date r) "Week 4") capacityRows with
  | Some week4 =>
      if String.eqb (CapacityRow.status week4) "Shortage"
      then Alerts.showHighRiskAlert "Capacity (Week 4)"
             (CapacityRow.forecast week4) (CapacityRow.capacity week4)
      else []
  | None => []
  end.

Definition cpuAlert (metrics : list Metric.t) : list Alerts.toast :=
  match find (by_id "cpu") metrics with
  | Some cpuMetric =>
      let cpuThreshold := of_Z 80 in
      match last (Metric.forecast cpuMetric) with
      | Some nextWeekCpu =>
          if gt nextWeekCpu cpuThreshold
          then Alerts.showHighRiskAlert "CPU (next week)" nextWeekCpu cpuThreshold
          else []
      | None => []
      end
  | None => []
  end.

Definition highRiskEffect (capacityRows : list CapacityRow.t) (metrics : list Metric.t)
    : list Alerts.toast :=
  week4Alert capacityRows ++ cpuAlert metrics.

(** The state of the view that [load] writes. *)
Record State := {
  forecastData : option (list number);
  capacityData : option CapacityResponse;
  isLoading : bool;
  error : option string;
}.

Definition initial : State :=
  {| forecastData := None; capacityData := None; isLoading := true; error := None |}.

Definition setForecastData (v : option (list number)) : Eff.t unit :=
  Eff.set (λ s, {| forecastData := v; capacityData := capacityData s;
                   isLoading := isLoading s; error := error s |}).
Definition setCapacityData (v : option CapacityResponse) : Eff.t unit :=
  Eff.set (λ s, {| forecastData := forecastData s; capacityData := v;
                   isLoading := isLoading s; error := error s |}).
Definition setIsLoading (v : bool) : Eff.t unit :=
  Eff.set (λ s, {| forecastData := forecastData s; capacityData := capacityData s;
                   isLoading := v; error := error s |}).
Definition setError (v : option string) : Eff.t unit :=
  Eff.set (λ s, {| forecastData := forecastData s; capacityData := capacityData s;
                   isLoading := isLoading s; error := v |}).

Definition load (api : Api) : Eff.t unit :=
  setIsLoading true;;
  setError None;;
  Eff.try_catch_finally
    (forecastResponse ← Eff.await (fetchForecast7 api);
     let predictions :=
       default (default [] (predictions_cpu forecastResponse))
               (predictions forecastResponse) in
     setForecastData (Some predictions);;
     capacityResponse ← Eff.await (fetchCapacityPlanning api (of_Z 10000) (of_Z 7));
     setCapacityData (Some capacityResponse))
    (λ message,
       setError (Some message);;
       setForecastData (Some (Array_fill_0 7)))
    (setIsLoading false).

End Forecasts.

(** ** [pages/Forecasts.jsx]: the multi-region view *)

Module MultiRegionDashboard.

Local Open Scope string_scope.

Record State := {
  allRegions : list Region.t;
  selectedRegions : list string;
  isLoading : bool;
  error : option string;
}.

Definition initial : State :=
  {| allRegions := []; selectedRegions := ["East US"; "West Europe"];
     isLoading := true; error := None |}.

Definition setAllRegions (v : list Region.t) : Eff.t unit :=
  Eff.set (λ s, {| allRegions := v; selectedRegions := selectedRegions s;
                   isLoading := isLoading s; error := error s |}).
(** [setSelectedRegions] takes an updater of the previous value. *)
Definition setSelectedRegions (f : list string → list string) (s : State) : State :=
  {| allRegions := allRegions s; selectedRegions := f (selectedRegions s);
     isLoading := isLoading s; error := error s |}.
Definition setIsLoading (v : bool) : Eff.t unit :=
  Eff.set (λ s, {| allRegions := allRegions s; selectedRegions := selectedRegions s;
                   isLoading := v; error := error s |}).
Definition setError (v : option string) : Eff.t unit :=
  Eff.set (λ s, {| allRegions := allRegions s; selectedRegions := selectedRegions s;
                   isLoading := isLoading s; error := v |}).

(** [selected] is the value of [selectedRegions] the closure captured when
    the view rendered. *)
Definition loadMultiRegionData (api : Api) (selected : list string) : Eff.t unit :=
  setIsLoading true;;
  setError None;;
  Eff.try_catch_finally
    (response ← Eff.await (fetchMultiRegion api);
     let regionsData := default [] (regions response) in
     setAllRegions regionsData;;
     if (0 <? length regionsData)%nat && (length selected =? 0)%nat
     then Eff.set (setSelectedRegions (λ _, Region.name <$> take 2 regionsData))
     else mret tt)
    (λ message,
       setError (Some message);;
       setAllRegions [])
    (setIsLoading false).

Definition visibleRegions (s : State) : list Region.t :=
  filter (λ r, Region.name r ∈ selectedRegions s) (allRegions s).

Definition handleToggleRegion (name : string) : State → State :=
  setSelectedRegions (λ prev,
    if bool_decide (name ∈ prev)
    then filter (λ r, r ≠ name) prev
    else (prev ++ [name])%list).

End MultiRegionDashboard.

(** ** [components/Header.jsx]: the notification bell *)

Module Header.

Local Open Scope string_scope.

Record State := {
  showNotifications : bool;
  notifications : list Notification.t;
  notifLoading : bool;
}.

Definition initial : State :=
  {| showNotifications := false; notifications := []; notifLoading := false |}.

Definition setShowNotifications (v : bool) : Eff.t unit :=
  Eff.set (λ s, {| showNotifications := v; notifications := notifications s;
                   notifLoading := notifLoading s |}).
Definition setNotifications (v : list Notification.t) : Eff.t unit :=
  Eff.set (λ s, {| showNotifications := showNotifications s; notifications := v;
                   notifLoading := notifLoading s |}).
Definition setNotifLoading (v : bool) : Eff.t unit :=
  Eff.set (λ s, {| showNotifications := showNotifications s;
                   notifications := notifications s; notifLoading := v |}).

Definition Array_isArray (v : alerts_field) : bool :=
  match v with alerts_array _ => true | alerts_not_array => false end.

Definition unavailable : Notification.t :=
  {| Notification.type := "system";
     Notification.message := "Notifications unavailable. Backend not responding.";
     Notification.severity := "low" |}.

Definition handleBellClick (api : Api) : Eff.t unit :=
  s ← Eff.get;
  let next := negb (showNotifications s) in
  setShowNotifications next;;
  if next then
    Eff.try_catch_finally
      (setNotifLoading true;;
       data ← Eff.await (fetchAlerts api (of_Z 80));
       setNotifications
         (match alerts data with
          | alerts_array items => items
          | alerts_not_array => []
          end))
      (λ _, setNotifications [unavailable])
      (setNotifLoading false)
  else mret tt.

End Header.

(** ** Observations on the derived values *)

Module Observe.

Local Open Scope string_scope.

(** The metric with a given id, as [metrics.find((m) => m.id === key)]. *)
Definition metric (key : string) (ms : list Metric.t) : option Metric.t :=
  find (Forecasts.by_id key) ms.

(** The forecast sequence of the metric with a given id. *)
Definition forecast_of (key : string) (ms : list Metric.t) : list number :=
  from_option Metric.forecast [] (metric key ms).

(** The value of the "Used" slice of a metric's pie. *)
Definition used (m : Metric.t) : option number :=
  Metric.value <$> find (λ e, String.eqb (Metric.name e) "Used") (Metric.pie m).

(** The capacity row labelled "Week 4". *)
Definition week4 (rows : list CapacityRow.t) : option CapacityRow.t :=
  find (λ r, String.eqb (CapacityRow.date r) "Week 4") rows.

(** The week-4 row exists and is a shortage. *)
Definition week4_shortage (rows : list CapacityRow.t) : Prop :=
  ∃ w, week4 rows = Some w ∧ CapacityRow.status w = "Shortage".

(** The last CPU forecast entry is above 80. *)
Definition cpu_above_80 (ms : list Metric.t) : Prop :=
  ∃ m x, metric "cpu" ms = Some m ∧ last (Metric.forecast m) = Some x
         ∧ gt x (of_Z 80) = true.

(** A value that is not below zero: its sign bit is clear, or it is NaN. *)
Definition not_negative (x : number) : bool :=
  match x with
  | S754_zero s | S754_infinity s | S754_finite s _ _ => negb s
  | S754_nan => true
  end.

End Observe.

(** The spec's reading of the storage scaling: one product by [0.025]. *)
Definition storage_by_single_factor (cpu : number) : number :=
  toFixed2 (cpu * dec 25 3)%num.

Arguments toFixed2 : simpl never.
Arguments Math_round : simpl never.
Arguments Math_max : simpl never.
Arguments Math_min : simpl never.
Arguments or_else : simpl never.
Arguments Num.add : simpl never.
Arguments Num.sub : simpl never.
Arguments Num.mul : simpl never.
Arguments Num.div : simpl never.
Arguments Num.neg : simpl never.
Arguments Num.lt : simpl never.
Arguments Num.le : simpl never.
Arguments Num.gt : simpl never.
Arguments Num.ge : simpl never.
Arguments of_ratio : simpl never.
Arguments of_Z : simpl never.
Arguments of_nat : simpl never.
Arguments dec : simpl never.

(** Inputs used in the worked examples below. *)
Module Sample_inputs.

(** Seven CPU forecasts of 9 percent. *)
Definition flat9 : list number := replicate 7 (of_Z 9).

(** Seven CPU forecasts of 50 percent. *)
Definition flat50 : list number := replicate 7 (of_Z 50).


(** A forecast whose first entry is negative. *)
Definition negative_first : list number :=
  of_Z <$> [-4; 0; 0; 0; 0; 0; 4]%Z.

(** A small forecast that doubles on the last day. *)
Definition small_rising : list number :=
  of_Z <$> [1; 1; 1; 1; 1; 1; 2]%Z.

(** Seven forecasts of one eighth. *)
Definition eighths : list number := replicate 7 (dec 125 3).

(** A capacity plan of 10000 units around an average forecast of 50. *)
Definition plan_10000 : CapacityResponse :=
  {| capacity := Some (of_Z 10000); avg_forecast := Some (of_Z 50) |}.

(** A backend that rejects every request. *)
Definition backend_down : Api :=
  {| fetchForecast7 := Rejected "Network Error";
     fetchCapacityPlanning := λ _ _, Rejected "Network Error";
     fetchMultiRegion := Rejected "Network Error";
     fetchAlerts := λ _, Rejected "Network Error" |}.

End Sample_inputs.

(** ** More number operations: remainder, array indices, printing *)

Module NumMore.

Local Open Scope Z_scope.

(** Structural equality of two numbers (the same bits). *)
Definition same (x y : number) : bool :=
  match x, y with
  | S754_zero s, S754_zero s' | S754_infinity s, S754_infinity s' => Bool.eqb s s'
  | S754_nan, S754_nan => true
  | S754_finite s m e, S754_finite s' m' e' =>
      Bool.eqb s s' && Pos.eqb m m' && Z.eqb e e'
  | _, _ => false
  end.

(** [x % y]: the remainder of the truncating division, exact, with the sign
    of [x]; NaN when [x] is not finite or [y] is zero. *)
Definition rem (x y : number) : number :=
  match x, y with
  | S754_nan, _ | _, S754_nan => S754_nan
  | S754_infinity _, _ => S754_nan
  | _, S754_zero _ => S754_nan
  | S754_zero _, _ => x
  | _, S754_infinity _ => x
  | S754_finite sx mx ex, S754_finite _ my ey =>
      let e := Z.min ex ey in
      let r := (Zpos mx * 2 ^ (ex - e)) mod (Zpos my * 2 ^ (ey - e)) in
      if r =? 0 then S754_zero sx
      else binary_normalize prec emax (if sx then - r else r) e false
  end.

(** [array[x]] reads an element only when [x] is a non-negative integer;
    [-0] is the index 0. *)
Definition as_index (x : number) : option nat :=
  match x with
  | S754_zero _ => Some 0%nat
  | S754_finite false m e =>
      if (num_of m e) mod (den_of e) =? 0
      then Some (Z.to_nat (num_of m e / den_of e))
      else None
  | _ => None
  end.

Definition lookup_number {A} (l : list A) (x : number) : option A :=
  i ← as_index x; l !! i.

(** The decimal digits of a non-negative integer. *)
Definition digits (n : Z) : string := pretty (Z.to_N n).

Definition pad_zeros (width : nat) (s : string) : string :=
  String.concat "" (replicate (width - String.length s) "0"%string) +:+ s.

(** The digits of [n / 10^f] with [f] digits after the point. *)
Definition fixed_digits (f : nat) (n : Z) : string :=
  match f with
  | O => digits n
  | _ => digits (n / 10 ^ Z.of_nat f) +:+ "." +:+
         pad_zeros f (digits (n mod 10 ^ Z.of_nat f))
  end.

(** The shortest digit string [s] (of [k] digits, tried from [k] on) and
    the exponent [n] for which [s * 10^(n - k)] reads back as the
    integer-valued double [X] of [n0] digits; between two strings that do,
    the closer one.  A string that rounds up to [10^k] is the digit 1 with
    one more in the exponent. *)
Fixpoint shortest (fuel k : nat) (X : Z) (n0 : nat) : Z * nat :=
  match fuel with
  | O => (X, n0)
  | S fuel' =>
      let p := 10 ^ Z.of_nat (n0 - k) in
      let lo := X / p in
      let hi := lo + 1 in
      let ok c := same (of_Z (c * p)) (of_Z X) in
      let out c :=
        if c =? 10 ^ Z.of_nat k then (10 ^ Z.of_nat (k - 1), S n0) else (c, n0) in
      if ok lo && ok hi then
        out (if X - lo * p <? hi * p - X then lo
             else if hi * p - X <? X - lo * p then hi
             else if Z.even lo then lo else hi)
      else if ok lo then out lo
      else if ok hi then out hi
      else shortest fuel' (S k) X n0
  end.

(** The digits of [s] without trailing zeros. *)
Fixpoint strip_zeros (fuel : nat) (s : Z) : Z :=
  match fuel with
  | O => s
  | S fuel' => if (s mod 10 =? 0) && negb (s =? 0) then strip_zeros fuel' (s / 10) else s
  end.

(** [String(x)] for an integer-valued [X >= 10^21]: exponent form. *)
Definition big_to_string (X : Z) : string :=
  let '(s, n) := shortest 17 1 X (String.length (digits X)) in
  match digits (strip_zeros 17 s) with
  | String c rest =>
      String c (match rest with EmptyString => "" | _ => "." +:+ rest end)
      +:+ "e+" +:+ pretty (n - 1)%nat
  | EmptyString => ""
  end.

(** [x.toFixed(f)] *)
Definition toFixed (f : nat) (x : number) : string :=
  match x with
  | S754_nan => "NaN"
  | S754_infinity s => if s then "-Infinity" else "Infinity"
  | S754_zero _ => fixed_digits f 0
  | S754_finite s m e =>
      (if s then "-" else "")
      +:+ (if 10 ^ 21 * den_of e <=? num_of m e
           then big_to_string (num_of m e / den_of e)
           else fixed_digits f
                  ((2 * 10 ^ Z.of_nat f * num_of m e + den_of e) / (2 * den_of e)))
  end.

End NumMore.

Import NumMore.

Infix "mod" := NumMore.rem : num_scope.

(** ** [pages/Forecasts.jsx]: recommendations, filters and slides *)

Module Recommendation.
Record t := {
  region : string;
  resource : string;
  forecastPct : number;
  level : string;
  delta : number;
  text : string;
}.
End Recommendation.

Record OptimizationResponse := {
  status : option string;
  suggested_change : option number;
  recommendation : option string;
}.

(** The what-if chart's points. *)
Module SeriesPoint.
Record t := {
  name : string;
  baseCpu : number;
  simCpu : number;
  baseStorage : number;
  simStorage : number;
}.
End SeriesPoint.

Module Requirement.
Record t := {
  baseCpuAvg : number;
  simCpuAvg : number;
  cpuDelta : number;
  baseStorAvg : number;
  simStorAvg : number;
  storDelta : string;
  baseCapacity : number;
  recommendedCapacity : number;
  action : string;
}.
End Requirement.

(** The filters of the form; an unset filter is the empty string. *)
Module Filters.
Record t := {
  region : string;
  service : string;
  timeHorizon : string;
}.
End Filters.

Module ForecastsView.

Local Open Scope string_scope.

(** ToBoolean on a string that may be [undefined]: the empty string is
    falsy. *)
Definition str_truthy (o : option string) : bool :=
  match o with
  | Some s => negb (String.eqb s "")
  | None => false
  end.

(** [o || d] on strings. *)
Definition str_or (o : option string) (d : string) : string :=
  match o with
  | Some s => if String.eqb s "" then d else s
  | None => d
  end.

Definition getCapacityRecommendation (region resource : string) (forecastPct : number)
    : Recommendation.t :=
  if ge forecastPct (of_Z 85) then
    {| Recommendation.region := region; Recommendation.resource := resource;
       Recommendation.forecastPct := forecastPct;
       Recommendation.level := "High Load"; Recommendation.delta := of_Z 12;
       Recommendation.text := "Increase " +:+ resource +:+ " capacity by +12%" |}
  else if le forecastPct (of_Z 50) then
    {| Recommendation.region := region; Recommendation.resource := resource;
       Recommendation.forecastPct := forecastPct;
       Recommendation.level := "Low Load"; Recommendation.delta := of_Z 15;
       Recommendation.text :=
         "Consider reducing " +:+ resource +:+ " capacity by -15% to save cost" |}
  else
    {| Recommendation.region := region; Recommendation.resource := resource;
       Recommendation.forecastPct := forecastPct;
       Recommendation.level := "Moderate Load"; Recommendation.delta := of_Z 0;
       Recommendation.text :=
         "Keep " +:+ resource +:+ " capacity steady and monitor usage" |}.

Definition filteredMetrics (metrics : list Metric.t) (filters : Filters.t)
    : list Metric.t :=
  if String.eqb (Filters.service filters) "" then metrics
  else
    List.filter
      (λ m, if String.eqb (Filters.service filters) "Compute"
            then String.eqb (Metric.id m) "cpu"
            else if String.eqb (Filters.service filters) "Storage"
                 then String.eqb (Metric.id m) "storage"
                 else negb (String.eqb (Metric.id m) ""))
      metrics.

(** The slide index and its four updates; [len] is
    [filteredMetrics.length]. *)
Definition nextSlide (len : nat) (p : number) : number :=
  ((p + of_Z 1) mod of_nat len)%num.
Definition prevSlide (len : nat) (p : number) : number :=
  ((p - of_Z 1 + of_nat len) mod of_nat len)%num.
Definition clampSlide (len : nat) (s : number) : number :=
  Math_min s (of_nat len - of_Z 1)%num.
Definition resetSlide : number := of_Z 0.

(** The two effects on the slide index that run after a render, in the
    order they are declared: [setCurrentSlide(0)] when [filters] is another
    object than at the previous render, and the clamp when
    [filteredMetrics.length] differs from its previous value [len].  The
    updates are queued: the updater of the clamp is applied to the value
    the first effect has set. *)
Definition slideEffects (filtersChanged : bool) (len len' : nat)
    (currentSlide : number) : number :=
  let afterReset := if filtersChanged then resetSlide else currentSlide in
  if (len' =? len)%nat then afterReset else clampSlide len' afterReset.

Definition activeMetric (filtered : list Metric.t) (currentSlide : number)
    : option Metric.t :=
  lookup_number filtered currentSlide.

(** [filters.region || "East-US"] *)
Definition region (filters : Filters.t) : string :=
  if String.eqb (Filters.region filters) "" then "East-US" else Filters.region filters.

(** The optimization request of [loadOpt]: its arguments, or [None] when no
    request is made. *)
Definition sum (arr : list number) : number := foldl Num.add (of_Z 0) arr.

Definition optimizationRequest (forecastData : option (list number)) (region : string)
    : option (number * number * string) :=
  match forecastData with
  | None => None
  | Some data =>
      if (length data =? 0)%nat then None
      else
        let avgForecast := (sum data / of_nat (length data))%num in
        let capacity := Math_round (avgForecast * of_Z 100)%num in
        Some (capacity, of_Z 7, region)
  end.

(** [loadOpt] over the state [optimizationData]; [fetchOptimization] is the
    request of [services/api]. *)
Definition loadOpt
    (fetchOptimization : number → number → string → outcome OptimizationResponse)
    (forecastData : option (list number)) (region : string)
    : @Eff.t (option OptimizationResponse) unit :=
  match optimizationRequest forecastData region with
  | None => mret tt
  | Some (capacity, horizon, region) =>
      Eff.try_catch_finally
        (response ← Eff.await (fetchOptimization capacity horizon region);
         Eff.set (λ _, Some response))
        (λ _, mret tt)
        (mret tt)
  end.

Definition recommendations (metrics : list Metric.t) (region : string)
    (optimizationData : option OptimizationResponse) : list Recommendation.t :=
  match optimizationData with
  | Some o =>
      if str_truthy (recommendation o) then
        (λ m,
           let forecastArr := Metric.forecast m in
           let nextCycle := default (Metric.current m) (last forecastArr) in
           let forecastPct :=
             if String.eqb (Metric.unit m) "%" then nextCycle
             else Math_min (of_Z 100) (Math_round nextCycle) in
           {| Recommendation.region := region;
              Recommendation.resource := Metric.title m;
              Recommendation.forecastPct := forecastPct;
              Recommendation.level := str_or (status o) "Moderate Load";
              Recommendation.delta := or_else (suggested_change o) (of_Z 0);
              Recommendation.text := str_or (recommendation o) "Monitor usage" |})
        <$> metrics
      else
        (λ m,
           let forecastArr := Metric.forecast m in
           let nextCycle := default (Metric.current m) (last forecastArr) in
           let forecastPct :=
             if String.eqb (Metric.unit m) "%" then nextCycle
             else Math_min (of_Z 100) (Math_round nextCycle) in
           getCapacityRecommendation region (Metric.title m) forecastPct)
        <$> metrics
  | None =>
      (λ m,
         let forecastArr := Metric.forecast m in
         let nextCycle := default (Metric.current m) (last forecastArr) in
         let forecastPct :=
           if String.eqb (Metric.unit m) "%" then nextCycle
           else Math_min (of_Z 100) (Math_round nextCycle) in
         getCapacityRecommendation region (Metric.title m) forecastPct)
      <$> metrics
  end.

(** [Array.isArray(whatIfBackend?.field) ? whatIfBackend.field : []] *)
Definition array_of (whatIfBackend : option WhatIfResponse)
    (field : WhatIfResponse → option (list number)) : list number :=
  default [] (whatIfBackend ≫= field).

Definition whatIfCombinedSeries (whatIfBackend : option WhatIfResponse)
    : list SeriesPoint.t :=
  let baseCpuArr := array_of whatIfBackend base_cpu in
  let simCpuArr := array_of whatIfBackend simulated_cpu in
  let baseStorArr := array_of whatIfBackend base_storage in
  let simStorArr := array_of whatIfBackend simulated_storage in
  let n := Nat.min (length baseCpuArr) (length baseStorArr) in
  (λ i,
     {| SeriesPoint.name := "Day " +:+ pretty (i + 1)%nat;
        SeriesPoint.baseCpu := toFixed2 (default (of_Z 0) (baseCpuArr !! i));
        SeriesPoint.simCpu :=
          toFixed2 (default (default (of_Z 0) (baseCpuArr !! i)) (simCpuArr !! i));
        SeriesPoint.baseStorage := toFixed2 (default (of_Z 0) (baseStorArr !! i));
        SeriesPoint.simStorage :=
          toFixed2 (default (default (of_Z 0) (baseStorArr !! i)) (simStorArr !! i)) |})
  <$> seq 0 n.

Definition avg (arr : list number) : number := (sum arr / of_nat (length arr))%num.

Definition capacityRequirement (whatIfBackend : option WhatIfResponse)
    (capacityData : option CapacityResponse) : option Requirement.t :=
  let bc := array_of whatIfBackend base_cpu in
  let sc := array_of whatIfBackend simulated_cpu in
  let bs := array_of whatIfBackend base_storage in
  let ss := array_of whatIfBackend simulated_storage in
  if (length bc =? 0)%nat || (length bs =? 0)%nat then None
  else
    let baseCpuAvg := avg bc in
    let simCpuAvg := avg (if (length sc =? 0)%nat then bc else sc) in
    let baseStorAvg := avg bs in
    let simStorAvg := avg (if (length ss =? 0)%nat then bs else ss) in
    let cpuDelta :=
      Math_round (((simCpuAvg - baseCpuAvg) / Math_max (of_Z 1) baseCpuAvg)
                  * of_Z 100)%num in
    let storDelta :=
      toFixed 1 (((simStorAvg - baseStorAvg) / Math_max (dec 1 4) baseStorAvg)
                 * of_Z 100)%num in
    let baseCapacity := or_else (capacityData ≫= capacity) (of_Z 10000) in
    let recommendedCapacity :=
      Math_round (baseCapacity * (simCpuAvg / Math_max (of_Z 1) baseCpuAvg))%num in
    let action :=
      if ge cpuDelta (of_Z 5) then "Increase"
      else if le cpuDelta (of_Z (-5)) then "Reduce"
      else "Keep steady" in
    Some {| Requirement.baseCpuAvg := baseCpuAvg; Requirement.simCpuAvg := simCpuAvg;
            Requirement.cpuDelta := cpuDelta; Requirement.baseStorAvg := baseStorAvg;
            Requirement.simStorAvg := simStorAvg; Requirement.storDelta := storDelta;
            Requirement.baseCapacity := baseCapacity;
            Requirement.recommendedCapacity := recommendedCapacity;
            Requirement.action := action |}.

(** [makeLineData] *)
Definition makeLineData (forecast : list number) : list (string * number) :=
  imap (λ i v, ("Week " +:+ pretty (i + 1)%nat, v)) forecast.

End ForecastsView.

(** ** [pages/Forecasts.jsx]: the charts and the export of the multi-region view *)

Module RegionCharts.

Local Open Scope string_scope.

(** What a chart point or a sheet cell can hold.  [Prototype] is what
    reading the key "__proto__" of a plain object gives, [Undefined] a key
    that is not there. *)
Inductive cell : Type :=
  | Text (s : string)
  | Value (x : number)
  | Prototype
  | Undefined.

(** A plain object with string keys: its own properties. *)
Abbreviation object := (gmap string cell).

(** [obj[key] = v] for a number or string [v]: an assignment to
    "__proto__" is ignored. *)
Definition assign (key : string) (v : cell) (obj : object) : object :=
  if String.eqb key "__proto__" then obj else <[key := v]> obj.

(** [obj[key]] *)
Definition get (obj : object) (key : string) : cell :=
  if String.eqb key "__proto__" then Prototype
  else default Undefined (obj !! key).

(** [c ?? d] *)
Definition nullish (c d : cell) : cell :=
  match c with Undefined => d | _ => c end.

Record ChartRow := {
  region : string;
  cpu : number;
  storage : number;
}.

Definition capacityChartData (visibleRegions : list Region.t) : list ChartRow :=
  (λ r, {| region := Region.name r; cpu := Region.cpuUsage r;
           storage := Region.storageUsage r |}) <$> visibleRegions.

Definition horizonLabels (horizonSteps : nat) : list string :=
  (λ i, "T+" +:+ pretty (i + 1)%nat) <$> seq 0 (Nat.min horizonSteps 4).

(** [r.forecast[idx] ?? r.forecast[r.forecast.length - 1] ?? 0] *)
Definition padded (forecast : list number) (idx : nat) : number :=
  default (default (of_Z 0) (last forecast)) (forecast !! idx).

Definition forecastChartData (visibleRegions : list Region.t) (horizonSteps : nat)
    : list object :=
  imap (λ idx label,
          foldl (λ point r,
                   assign (Region.name r) (Value (padded (Region.forecast r) idx)) point)
                ({[ "step" := Text label ]} : object) visibleRegions)
       (horizonLabels horizonSteps).

(** The workbook [handleExport] writes: file name, sheet name and the rows
    of the sheet. *)
Record Workbook := {
  file : string;
  sheet : string;
  rows : list (list cell);
}.

Definition handleExport (visibleRegions : list Region.t) (horizonSteps : nat)
    : Workbook :=
  let header1 := [Text "Multi-Region Capacity Comparison"] in
  let table1 :=
    [Text "Region"; Text "CPU (%)"; Text "Storage (TB)"]
    :: ((λ d, [Text (region d); Value (cpu d); Value (storage d)])
          <$> capacityChartData visibleRegions) in
  let header2 := [Text "Forecast Demand (Relative Units)"] in
  let table2 :=
    (Text "Step" :: ((λ r, Text (Region.name r)) <$> visibleRegions))
    :: ((λ row,
           get row "step"
           :: ((λ r, nullish (get row (Region.name r)) (Value (of_Z 0)))
                 <$> visibleRegions))
          <$> forecastChartData visibleRegions horizonSteps) in
  let aoa := (header1 :: table1 ++ [[]] ++ header2 :: table2)%list in
  {| file := "multi_region_dashboard.xlsx"; sheet := "Dashboard Data"; rows := aoa |}.

End RegionCharts.

(** ** [components/Header.jsx]: the popover *)

Module HeaderPopover.

(** The "Close" button of the popover. *)
Definition closeClick : @Eff.t Header.State unit := Header.setShowNotifications false.

(** The count on the bell: [notifications.length || 0]. *)
Definition badge (s : Header.State) : nat := length (Header.notifications s).

(** What the popover shows. *)
Inductive body : Type :=
  | Hidden
  | Loading
  | NoAlerts
  | Entries (items : list Notification.t).

Definition popover (s : Header.State) : body :=
  if Header.showNotifications s then
    if Header.notifLoading s then Loading
    else if (length (Header.notifications s) =? 0)%nat then NoAlerts
    else Entries (Header.notifications s)
  else Hidden.

End HeaderPopover.

(** ** [pages/Forecasts.jsx]: what the view shows while [load] runs *)

Module LoadRenders.

Import Forecasts.

(** The states the view renders from the call of [load] on: the state it
    is called in, the state while the forecast request is pending (loading,
    no error), when that request resolves the state while the capacity
    request is pending (the predictions stored), and the state [load] ends
    in.  The updates made before an [await] are committed while the handler
    waits. *)
Definition load_renders (api : Api) (s : State) : list State :=
  let waiting := snd ((setIsLoading true;; setError None) s) in
  let final := snd (load api s) in
  match fetchForecast7 api with
  | Rejected _ => [s; waiting; final]
  | Resolved forecastResponse =>
      let predictions :=
        default (default [] (predictions_cpu forecastResponse))
                (predictions forecastResponse) in
      let fetched := snd (setForecastData (Some predictions) waiting) in
      [s; waiting; fetched; final]
  end.

(** The toasts the alert effect raises when it runs in a state. *)
Definition alerts (s : State) : list Alerts.toast :=
  highRiskEffect (capacityRows (capacityData s) (forecastData s))
                 (metrics (forecastData s)).

End LoadRenders.

(** ** Sample regions *)

Module Sample_regions.

Local Open Scope string_scope.

(** Two regions: one with a forecast of two steps, one without forecast. *)
Definition two_regions : list Region.t :=
  [ {| Region.name := "East US"; Region.cpuUsage := of_Z 70;
       Region.storageUsage := of_Z 12; Region.forecast := [of_Z 1; of_Z 2] |};
    {| Region.name := "West Europe"; Region.cpuUsage := of_Z 40;
       Region.storageUsage := of_Z 8; Region.forecast := [] |} ].

End Sample_regions.

(** ** More observations *)

Module ObserveMore.

(** The number of entries of each derived forecast sequence. *)
Definition horizon (fd : option (list number)) : nat :=
  match fd with
  | None | Some [] => 7
  | Some data => Nat.min 7 (length data)
  end.

(** A number that is neither NaN nor an infinity, as [Number.isFinite]. *)
Definition Number_isFinite (x : number) : bool :=
  match x with
  | S754_zero _ | S754_finite _ _ _ => true
  | S754_infinity _ | S754_nan => false
  end.

End ObserveMore.

(** * Properties *)

(** ** Signs and order of the number operations *)

Section NumberFacts.

Import Observe.

Implicit Types (a b x y : number).

(** Well-known values of the operations, as a browser computes them. *)
Example add_tenths : (dec 1 1 + dec 2 1)%num = dec 30000000000000004 17.
Proof. vm_compute. reflexivity. Qed.

Example toFixed2_below_half : toFixed2 (dec 1005 3) = of_Z 1.
Proof. vm_compute. reflexivity. Qed.

Example toFixed2_tie : toFixed2 (dec 125 3) = dec 13 2.
Proof. vm_compute. reflexivity. Qed.

Example toFixed2_negative_zero :
  toFixed2 (dec (-1) 3) = S754_zero true ∧ toFixed2 (S754_zero true) = S754_zero false.
Proof. vm_compute. auto. Qed.

Example toFixed2_large : toFixed2 (of_Z (10 ^ 21)) = of_Z (10 ^ 21).
Proof. vm_compute. reflexivity. Qed.

Example Math_round_ties :
  Math_round (dec 25 1) = of_Z 3
  ∧ Math_round (dec (-25) 1) = of_Z (-2)
  ∧ Math_round (dec (-5) 1) = S754_zero true
  ∧ Math_round (dec 49 2) = of_Z 0.
Proof. vm_compute. auto. Qed.

Example Math_max_zeros :
  Math_max (S754_zero true) (S754_zero false) = S754_zero false
  ∧ Math_min (S754_zero false) (S754_zero true) = S754_zero true
  ∧ Math_max (of_Z 1) NaN = NaN.
Proof. vm_compute. auto. Qed.

Lemma SFcompare_swap a b :
  SFcompare b a = CompOpp <$> SFcompare a b.
Proof.
  destruct a as [[]|[]| |[] m e], b as [[]|[]| |[] m' e'];
    cbn [SFcompare fmap option_fmap option_map CompOpp]; try reflexivity.
  - rewrite (Z.compare_antisym e e').
    destruct (e ?= e')%Z; cbn [CompOpp]; try reflexivity.
    by rewrite (Pos.compare_cont_antisym m m' Eq).
  - rewrite (Z.compare_antisym e e').
    destruct (e ?= e')%Z; cbn [CompOpp]; try reflexivity.
    by rewrite (Pos.compare_cont_antisym m m' Eq).
Qed.

Lemma lt_asym a b : lt a b = true → lt b a = false.
Proof.
  unfold lt, SFltb. rewrite (SFcompare_swap a b).
  by destruct (SFcompare a b) as [[]|].
Qed.

Lemma lt_irrefl a : lt a a = false.
Proof.
  destruct (lt a a) eqn:H; [|done]. by rewrite (lt_asym _ _ H) in H.
Qed.

(** [Math.min(a, u)] is never above [a]. *)
Lemma Math_min_not_above a u : gt (Math_min a u) a = false.
Proof.
  unfold gt, Math_min.
  assert (Hgen : SFltb a (if SFltb u a then u else a) = false).
  { destruct (SFltb u a) eqn:Hlt; [exact (lt_asym _ _ Hlt) | apply lt_irrefl]. }
  destruct a as [sa|sa| |sa ma ea], u as [su|su| |su mu eu];
    try exact Hgen; reflexivity.
Qed.

Lemma not_negative_lt_zero x : not_negative x = true → lt x (of_Z 0) = false.
Proof. by destruct x as [[]|[]| |[] m e]. Qed.

Lemma binary_round_aux_sign (s : bool) (m e : Z) (l : location) :
  match binary_round_aux prec emax s m e l with
  | S754_zero s' | S754_infinity s' | S754_finite s' _ _ => s' = s
  | S754_nan => True
  end.
Proof.
  unfold binary_round_aux.
  destruct (shr_fexp prec emax m e l) as [mrs e1].
  destruct (shr_fexp prec emax _ e1 loc_Exact) as [mrs' e2].
  destruct (shr_m mrs'); [done| |done].
  by destruct (e2 <=? emax - prec)%Z.
Qed.

Lemma binary_round_aux_not_negative (m e : Z) (l : location) :
  not_negative (binary_round_aux prec emax false m e l) = true.
Proof.
  pose proof (binary_round_aux_sign false m e l) as H.
  by destruct (binary_round_aux _ _ _ _ _ _) as [?|?| |? ? ?]; subst.
Qed.

(** A positive constant times a value not below zero is not below zero. *)
Lemma mul_positive_constant (m : positive) (e : Z) x :
  lt x (of_Z 0) = false →
  lt (S754_finite false m e * x)%num (of_Z 0) = false.
Proof.
  unfold Num.mul.
  destruct x as [[]|[]| |[] mx ex]; try done.
  intros _. cbn [SFmul xorb].
  apply not_negative_lt_zero, binary_round_aux_not_negative.
Qed.

(** A negative constant times a value not below zero is not above zero. *)
Lemma mul_negative_constant (m : positive) (e : Z) x :
  lt x (of_Z 0) = false →
  lt (of_Z 0) (S754_finite true m e * x)%num = false.
Proof.
  unfold Num.mul.
  destruct x as [[]|[]| |[] mx ex]; try done.
  intros _. cbn [SFmul xorb].
  pose proof (binary_round_aux_sign true (Z.pos (m * mx)) (e + ex) loc_Exact) as H.
  by destruct (binary_round_aux _ _ _ _ _ _) as [?|?| |? ? ?]; subst.
Qed.

(** Nothing lies at or above a value not below zero and strictly below a
    value not above zero. *)
Lemma no_value_between a b x :
  lt a (of_Z 0) = false → lt (of_Z 0) b = false →
  ge x a = true → lt x b = false.
Proof.
  destruct a as [[]|[]| |[] ma ea], b as [[]|[]| |[] mb eb],
    x as [[]|[]| |[] mx ex]; done.
Qed.

Lemma of_ratio_not_negative (n : Z) (d : positive) :
  (0 ≤ n)%Z → not_negative (of_ratio n d) = true.
Proof.
  intros Hn. unfold of_ratio. destruct n as [|p|p]; [done| |lia].
  destruct (SFdiv_core_binary prec emax (Z.pos p) 0 (Z.pos d) 0) as [[q e] l].
  apply binary_round_aux_not_negative.
Qed.

Lemma mul_not_negative a b :
  not_negative a = true → not_negative b = true → not_negative (a * b)%num = true.
Proof.
  unfold Num.mul.
  destruct a as [[]|[]| |[] ma ea], b as [[]|[]| |[] mb eb]; try done.
  intros _ _. cbn [SFmul xorb]. apply binary_round_aux_not_negative.
Qed.

Lemma div_not_negative a b :
  not_negative a = true → not_negative b = true → not_negative (a / b)%num = true.
Proof.
  unfold Num.div.
  destruct a as [[]|[]| |[] ma ea], b as [[]|[]| |[] mb eb]; try done.
  intros _ _. cbn [SFdiv xorb].
  destruct (SFdiv_core_binary prec emax (Z.pos ma) ea (Z.pos mb) eb) as [[q e] l].
  apply binary_round_aux_not_negative.
Qed.

Lemma num_of_pos (m : positive) (e : Z) : (0 < num_of m e)%Z.
Proof.
  unfold num_of.
  destruct e; first [lia | apply Z.mul_pos_pos; [lia | apply Z.pow_pos_nonneg; lia]].
Qed.

Lemma den_of_pos (e : Z) : (0 < den_of e)%Z.
Proof.
  unfold den_of. destruct e; first [lia | apply Z.pow_pos_nonneg; lia].
Qed.

Lemma toFixed2_not_negative x :
  lt x (of_Z 0) = false → not_negative (toFixed2 x) = true.
Proof.
  destruct x as [s|[]| |[] m e]; try done.
  intros _. unfold toFixed2.
  destruct (_ <=? _)%Z; [done|].
  destruct (_ =? 0)%Z; [done|].
  apply of_ratio_not_negative.
  pose proof (num_of_pos m e). pose proof (den_of_pos e).
  apply Z.div_pos; lia.
Qed.

Lemma Math_round_not_negative x :
  not_negative x = true → not_negative (Math_round x) = true.
Proof.
  destruct x as [s|s| |[] m e]; try done.
  intros _. unfold Math_round.
  destruct (_ =? 0)%Z; [done|].
  apply of_ratio_not_negative.
  pose proof (num_of_pos m e). pose proof (den_of_pos e).
  apply Z.div_pos; lia.
Qed.

Lemma Math_max_not_negative a b :
  not_negative a = true → not_negative (Math_max a b) = true.
Proof.
  unfold Math_max.
  destruct a as [[]|[]| |[] ma ea], b as [[]|[]| |[] mb eb]; try done;
    intros _; cbn [SFltb SFcompare];
    repeat match goal with |- context [match ?c with _ => _ end] => destruct c end;
    done.
Qed.

Lemma Math_min_not_negative a b :
  not_negative a = true → not_negative b = true →
  not_negative (Math_min a b) = true.
Proof.
  unfold Math_min.
  destruct a as [[]|[]| |[] ma ea], b as [[]|[]| |[] mb eb]; try done;
    intros _ _; by destruct (SFltb _ _).
Qed.

Lemma or_else_not_negative (o : option number) (d : number) :
  (∀ v, o = Some v → not_negative v = true) → not_negative d = true →
  not_negative (or_else o d) = true.
Proof.
  intros Ho Hd. unfold or_else. destruct o as [v|]; [|done].
  destruct (truthy v); [by apply Ho | done].
Qed.

End NumberFacts.

Section CapacityRisk.

Local Open Scope string_scope.
Import Forecasts.

(** The two tests exclude each other when the forecast is not below zero. *)
Lemma getRisk_tests_exclusive (f c : number) :
  lt f (of_Z 0) = false →
  ge (c - f)%num (dec 1 1 * f)%num = true →
  lt (c - f)%num (neg (dec 5 2) * f)%num = false.
Proof.
  intros Hf. apply no_value_between.
  - exact (mul_positive_constant 7205759403792794 (-56) f Hf).
  - exact (mul_negative_constant 7205759403792794 (-57) f Hf).
Qed.

(** C1. The capacity-risk classifier returns "Sufficient" when
    [capacity - forecast >= 0.1 * forecast], otherwise "Shortage" when
    [capacity - forecast < -0.05 * forecast], and "Over / Slight risk" in
    every remaining case (the tests are made in this order, in double
    arithmetic).  For a forecast that is not below zero the two tests
    exclude each other, so that "Shortage" is returned whenever its test
    holds.  (100, 111) is "Sufficient", (100, 94) is "Shortage" and
    (100, 100) is "Over / Slight risk". *)
Theorem getRisk_classification :
  (∀ f c : number,
     (ge (c - f)%num (dec 1 1 * f)%num = true → getRisk f c = "Sufficient")
     ∧ (ge (c - f)%num (dec 1 1 * f)%num = false →
        lt (c - f)%num (neg (dec 5 2) * f)%num = true →
        getRisk f c = "Shortage")
     ∧ (ge (c - f)%num (dec 1 1 * f)%num = false →
        lt (c - f)%num (neg (dec 5 2) * f)%num = false →
        getRisk f c = "Over / Slight risk"))
  ∧ (∀ f c : number,
       lt f (of_Z 0) = false →
       lt (c - f)%num (neg (dec 5 2) * f)%num = true →
       getRisk f c = "Shortage")
  ∧ getRisk (of_Z 100) (of_Z 111) = "Sufficient"
  ∧ getRisk (of_Z 100) (of_Z 94) = "Shortage"
  ∧ getRisk (of_Z 100) (of_Z 100) = "Over / Slight risk".
Proof.
  split; [|split].
  - intros f c. unfold getRisk.
    repeat split; intros H; try intros H'; rewrite H; try rewrite H'; reflexivity.
  - intros f c Hf Hlt. unfold getRisk.
    destruct (ge (c - f)%num (dec 1 1 * f)%num) eqn:Hge.
    + by rewrite (getRisk_tests_exclusive f c Hf Hge) in Hlt.
    + by rewrite Hlt.
  - repeat split; vm_compute; reflexivity.
Qed.

(** The three statuses are the only ones a row can carry. *)
Lemma getRisk_range (f c : number) :
  getRisk f c ∈ ["Sufficient"; "Shortage"; "Over / Slight risk"].
Proof.
  unfold getRisk.
  destruct (ge _ _); [set_solver|]. destruct (lt _ _); set_solver.
Qed.

(** With a negative forecast both tests can hold at once; the first one
    decides. *)
Example getRisk_negative_forecast :
  let f := of_Z (-100) in
  let c := of_Z (-108) in
  ge (c - f)%num (dec 1 1 * f)%num = true
  ∧ lt (c - f)%num (neg (dec 5 2) * f)%num = true
  ∧ getRisk f c = "Sufficient".
Proof. vm_compute. auto. Qed.

End CapacityRisk.

Section MetricDerivation.

Local Open Scope string_scope.
Import Forecasts Observe.

Lemma forecast_of_cpu (data : list number) :
  data ≠ [] →
  forecast_of "cpu" (metrics (Some data)) = toFixed2 <$> take 7 data.
Proof. destruct data; [done | reflexivity]. Qed.

Lemma forecast_of_storage (data : list number) :
  data ≠ [] →
  forecast_of "storage" (metrics (Some data))
  = (λ cpu, toFixed2 (cpu * dec 1 2 * dec 25 1)%num) <$> (toFixed2 <$> take 7 data).
Proof. destruct data; [done | reflexivity]. Qed.

Lemma forecast_of_network (data : list number) :
  data ≠ [] →
  forecast_of "network" (metrics (Some data))
  = (λ cpu, toFixed2 (cpu * of_Z 10)%num) <$> (toFixed2 <$> take 7 data).
Proof. destruct data; [done | reflexivity]. Qed.

(** C2, as the code has it.  For a forecast sequence of length at least 7
    the three derived sequences have 7 entries, the CPU entries are the
    first 7 inputs rounded to 2 decimals, and for every CPU entry [cpu] the
    storage entry at the same index is [(cpu * 0.01) * 2.5] rounded to 2
    decimals and the network entry is [cpu * 10] rounded to 2 decimals. *)
Theorem metrics_scaling (data : list number) :
  (7 ≤ length data)%nat →
  length (forecast_of "cpu" (metrics (Some data))) = 7
  ∧ length (forecast_of "storage" (metrics (Some data))) = 7
  ∧ length (forecast_of "network" (metrics (Some data))) = 7
  ∧ (∀ i v, (i < 7)%nat → data !! i = Some v →
       forecast_of "cpu" (metrics (Some data)) !! i = Some (toFixed2 v))
  ∧ (∀ i cpu,
       forecast_of "cpu" (metrics (Some data)) !! i = Some cpu →
       forecast_of "storage" (metrics (Some data)) !! i
         = Some (toFixed2 (cpu * dec 1 2 * dec 25 1)%num)
       ∧ forecast_of "network" (metrics (Some data)) !! i
         = Some (toFixed2 (cpu * of_Z 10)%num)).
Proof.
  intros Hlen.
  assert (Hne : data ≠ []) by (intros ->; simpl in Hlen; lia).
  rewrite forecast_of_cpu, forecast_of_storage, forecast_of_network by done.
  rewrite !length_fmap, length_take.
  repeat split; try lia.
  - intros i v Hi Hv. by rewrite list_lookup_fmap, lookup_take_lt, Hv.
  - by rewrite list_lookup_fmap, H.
  - by rewrite list_lookup_fmap, H.
Qed.

Lemma metrics_scaling_witness :
  (7 ≤ length Sample_inputs.flat9)%nat
  ∧ forecast_of "storage" (metrics (Some Sample_inputs.flat9)) !! 6
    = Some (toFixed2 (of_Z 9 * dec 1 2 * dec 25 1)%num).
Proof.
  split; [vm_compute; lia |].
  apply (metrics_scaling Sample_inputs.flat9); [vm_compute; lia |].
  vm_compute. reflexivity.
Defined.

(** C2, as the spec words it, fails: with a CPU entry of 9 the storage
    entry is 0.22, because [9 * 0.01 * 2.5] is the double just below 0.225.
    The value [9 * 0.025] is 0.225 and rounds to 0.23, whether it is taken
    as the double product [9 * 0.025] or as the literal [0.225]. *)
Lemma storage_single_factor_counterexample :
  forecast_of "cpu" (metrics (Some Sample_inputs.flat9)) !! 0%nat = Some (of_Z 9)
  ∧ forecast_of "storage" (metrics (Some Sample_inputs.flat9)) !! 0%nat
    = Some (dec 22 2)
  ∧ storage_by_single_factor (of_Z 9) = dec 23 2
  ∧ toFixed2 (dec 225 3) = dec 23 2
  ∧ dec 22 2 ≠ dec 23 2.
Proof. vm_compute. repeat split; discriminate. Qed.

End MetricDerivation.

Section PieShare.

Local Open Scope string_scope.
Import Forecasts Observe.

Implicit Types (data : list number) (m : Metric.t).

(** The used percentage computed by [share_pie]. *)
Lemma share_pie_used m (floor cur : number) (fc : list number) :
  Metric.pie m = share_pie floor cur fc →
  used m
  = Some (Math_min (of_Z 100)
            (Math_round ((cur / Math_max floor (or_else (last fc) cur)) * of_Z 100)%num)).
Proof. unfold used. by intros ->. Qed.

Lemma share_pie_not_negative (floor cur : number) (fc : list number) :
  not_negative floor = true → not_negative cur = true →
  Forall (λ v, not_negative v = true) fc →
  not_negative
    (Math_min (of_Z 100)
       (Math_round ((cur / Math_max floor (or_else (last fc) cur)) * of_Z 100)%num))
  = true.
Proof.
  intros Hfloor Hcur Hfc.
  apply Math_min_not_negative; [done|].
  apply Math_round_not_negative, mul_not_negative; [|done].
  apply div_not_negative; [done|].
  by apply Math_max_not_negative.
Qed.

Lemma placeholder_metric (fd : option (list number)) (key : string) :
  fd = None ∨ fd = Some [] →
  key = "storage" ∨ key = "network" →
  ∃ m, metric key (metrics fd) = Some m ∧ used m = Some (of_Z 0).
Proof.
  intros [-> | ->] [-> | ->]; by eexists.
Qed.

Lemma derived_metric data (key : string) (floor : number) :
  data ≠ [] →
  (key = "storage" ∧ floor = dec 1 1) ∨ (key = "network" ∧ floor = of_Z 1) →
  ∃ m, metric key (metrics (Some data)) = Some m
       ∧ Metric.pie m = share_pie floor (Metric.current m) (Metric.forecast m)
       ∧ ((∀ v, v ∈ take 7 data → lt v (of_Z 0) = false) →
          not_negative (Metric.current m) = true
          ∧ Forall (λ v, not_negative v = true) (Metric.forecast m)).
Proof.
  intros Hne Hk.
  destruct data as [|v0 data]; [done|].
  assert (Hcpu : (∀ v, v ∈ take 7 (v0 :: data) → lt v (of_Z 0) = false) →
                 Forall (λ v, not_negative v = true) (toFixed2 <$> take 7 (v0 :: data))).
  { intros Hpos. apply Forall_fmap, Forall_forall. intros v Hv.
    by apply toFixed2_not_negative, Hpos. }
  assert (Hcur : (∀ v, v ∈ take 7 (v0 :: data) → lt v (of_Z 0) = false) →
                 not_negative
                   (or_else ((toFixed2 <$> take 7 (v0 :: data)) !! 0%nat) (of_Z 0)) = true).
  { intros Hpos. apply or_else_not_negative; [|done].
    intros v Hv. apply (Forall_lookup_1 _ _ _ _ (Hcpu Hpos) Hv). }
  assert (Hsto : ∀ cpu, not_negative cpu = true →
                 not_negative (toFixed2 (cpu * dec 1 2 * dec 25 1)%num) = true).
  { intros cpu Hc. apply toFixed2_not_negative, not_negative_lt_zero.
    by repeat apply mul_not_negative. }
  assert (Hnet : ∀ cpu, not_negative cpu = true →
                 not_negative (toFixed2 (cpu * of_Z 10)%num) = true).
  { intros cpu Hc. apply toFixed2_not_negative, not_negative_lt_zero.
    by apply mul_not_negative. }
  destruct Hk as [[-> ->] | [-> ->]]; eexists; (split; [reflexivity|]);
    (split; [reflexivity|]); intros Hpos;
    cbn [Metric.current Metric.forecast]; split.
  - by apply Hsto, Hcur.
  - apply Forall_fmap. eapply Forall_impl; [exact (Hcpu Hpos)|]. exact Hsto.
  - by apply Hnet, Hcur.
  - apply Forall_fmap. eapply Forall_impl; [exact (Hcpu Hpos)|]. exact Hnet.
Qed.

(** C4, as the code has it.  For the storage metric ([floor = 0.1]) and the
    network metric ([floor = 1]) the "Used" share is 0 when there is no
    forecast data, and otherwise
    [Math.min(100, Math.round(current / Math.max(floor, next) * 100))], where
    [next] is the last forecast value, or the current value when the last
    one is zero.  The share is never above 100, and it is not below 0 when
    none of the first 7 inputs is below 0; no lower clamp is applied. *)
Theorem used_share (fd : option (list number)) (key : string) (floor : number) :
  (key = "storage" ∧ floor = dec 1 1) ∨ (key = "network" ∧ floor = of_Z 1) →
  ∃ m u,
    metric key (metrics fd) = Some m
    ∧ used m = Some u
    ∧ (fd = None ∨ fd = Some [] → u = of_Z 0)
    ∧ (∀ data, fd = Some data → data ≠ [] →
         u = Math_min (of_Z 100)
               (Math_round
                  ((Metric.current m
                    / Math_max floor
                        (or_else (last (Metric.forecast m)) (Metric.current m)))
                   * of_Z 100)%num))
    ∧ gt u (of_Z 100) = false
    ∧ ((∀ data v, fd = Some data → v ∈ take 7 data → lt v (of_Z 0) = false) →
       lt u (of_Z 0) = false).
Proof.
  intros Hkey.
  assert (Hk : key = "storage" ∨ key = "network") by (destruct Hkey as [[]|[]]; auto).
  assert (Hfloor : not_negative floor = true) by (by destruct Hkey as [[_ ->]|[_ ->]]).
  assert (Hph : fd = None ∨ fd = Some [] ∨ ∃ data, fd = Some data ∧ data ≠ []).
  { destruct fd as [[|v data]|];
      [by right; left | by right; right; eexists | by left]. }
  destruct Hph as [Hph | [Hph | (data & -> & Hne)]].
  - destruct (placeholder_metric fd key (or_introl Hph) Hk) as (m & Hm & Hu).
    exists m, (of_Z 0). subst fd. by repeat split.
  - destruct (placeholder_metric fd key (or_intror Hph) Hk) as (m & Hm & Hu).
    exists m, (of_Z 0). subst fd. repeat split; try done. by intros data [= <-].
  - destruct (derived_metric data key floor Hne Hkey) as (m & Hm & Hpie & Hsign).
    eexists m, _. split; [exact Hm|].
    split; [exact (share_pie_used _ _ _ _ Hpie)|].
    split; [by intros [[=] | [= ->]]|].
    split; [done|].
    split; [apply Math_min_not_above|].
    intros Hpos. apply not_negative_lt_zero.
    destruct Hsign as [Hc Hf]; [by intros v; apply Hpos|].
    by apply share_pie_not_negative.
Qed.

Lemma used_share_witness :
  ∃ m u,
    metric "storage" (metrics (Some Sample_inputs.small_rising)) = Some m
    ∧ used m = Some u
    ∧ gt u (of_Z 100) = false
    ∧ lt u (of_Z 0) = false.
Proof.
  destruct (used_share (Some Sample_inputs.small_rising) "storage" (dec 1 1))
    as (m & u & Hm & Hu & _ & _ & Hle & Hge); [by left|].
  exists m, u. repeat split; try done.
  apply Hge. intros data v [= <-] Hv.
  vm_compute in Hv.
  repeat (apply elem_of_cons in Hv as [-> | Hv]; [reflexivity|]).
  by apply not_elem_of_nil in Hv.
Defined.

(** C4, as the spec words it, fails: with a negative first forecast the
    storage "Used" share is -100, below the interval [0, 100]. *)
Lemma used_share_counterexample :
  ∃ m, metric "storage" (metrics (Some Sample_inputs.negative_first)) = Some m
       ∧ used m = Some (of_Z (-100))
       ∧ lt (of_Z (-100)) (of_Z 0) = true.
Proof. eexists. vm_compute. repeat split. Qed.

(** The divisor is floored: with a current storage value of 0.03 and a last
    forecast value of 0.05 the share is 30, not the 60 that
    [current / last] gives. *)
Example used_share_floor :
  ∃ m, metric "storage" (metrics (Some Sample_inputs.small_rising)) = Some m
       ∧ Metric.current m = dec 3 2
       ∧ last (Metric.forecast m) = Some (dec 5 2)
       ∧ used m = Some (of_Z 30)
       ∧ Math_round ((dec 3 2 / dec 5 2) * of_Z 100)%num = of_Z 60.
Proof. eexists. vm_compute. repeat split. Qed.

End PieShare.

Section WhatIf.

Local Open Scope string_scope.
Import Forecasts Observe.

Implicit Types (ms : list Metric.t) (wd td : number) (r : WhatIf).


(** The baselines are the last forecast entries of the two metrics. *)
Lemma whatIfResults_base ms wd td wb r cpuMetric storageMetric :
  whatIfResults ms wd td wb = Some r →
  metric "cpu" ms = Some cpuMetric →
  metric "storage" ms = Some storageMetric →
  baseCpu r = default (Metric.current cpuMetric) (last (Metric.forecast cpuMetric))
  ∧ baseStorage r
    = default (Metric.current storageMetric) (last (Metric.forecast storageMetric)).
Proof.
  unfold whatIfResults, metric. intros Hr Hc Hs.
  rewrite Hc, Hs in Hr. by injection Hr as <-.
Qed.

(** C3. Without a backend response, [whatIfResults] gives no result
    exactly when the metrics hold no cpu or no storage metric.  Otherwise
    it gives a result whose CPU baseline is the last forecast value of the
    cpu metric (its current value when the forecast is empty), whose
    storage baseline is the same of the storage metric, whose simulated CPU
    value is [base * (1 + workloadDelta / 100)] rounded to 2 decimals and
    whose simulated storage value is [base * (1 + trafficDelta / 100)]
    rounded to 2 decimals, each from its own baseline and delta; a baseline
    of 50 with a delta of 20 gives 60. *)
Theorem whatIf_local_simulation :
  (∀ ms wd td,
     whatIfResults ms wd td None = None
     ↔ metric "cpu" ms = None ∨ metric "storage" ms = None)
  ∧ (∀ ms wd td cpuMetric storageMetric,
       metric "cpu" ms = Some cpuMetric →
       metric "storage" ms = Some storageMetric →
       ∃ r, whatIfResults ms wd td None = Some r
            ∧ baseCpu r
              = default (Metric.current cpuMetric) (last (Metric.forecast cpuMetric))
            ∧ baseStorage r
              = default (Metric.current storageMetric)
                        (last (Metric.forecast storageMetric))
            ∧ simulatedCpu r
              = toFixed2 (default (Metric.current cpuMetric)
                                  (last (Metric.forecast cpuMetric))
                          * (of_Z 1 + wd / of_Z 100))%num
            ∧ simulatedStorage r
              = toFixed2 (default (Metric.current storageMetric)
                                  (last (Metric.forecast storageMetric))
                          * (of_Z 1 + td / of_Z 100))%num
            ∧ (baseCpu r = of_Z 50 → wd = of_Z 20 → simulatedCpu r = of_Z 60)
            ∧ (baseStorage r = of_Z 50 → td = of_Z 20 →
               simulatedStorage r = of_Z 60)).
Proof.
  split.
  - intros ms wd td. unfold whatIfResults, metric.
    destruct (find (by_id "cpu") ms); [|split; [by left | done]].
    destruct (find (by_id "storage") ms); [|split; [by right | done]].
    split; [done | by intros [|]].
  - intros ms wd td cpuMetric storageMetric Hc Hs.
    unfold whatIfResults. unfold metric in Hc, Hs. rewrite Hc, Hs.
    eexists. split; [reflexivity|].
    cbn [baseCpu baseStorage simulatedCpu simulatedStorage mbind option_bind
         default from_option].
    repeat split.
    + intros -> ->. vm_compute. reflexivity.
    + intros -> ->. vm_compute. reflexivity.
Qed.

Lemma whatIf_local_simulation_witness :
  ∃ r, whatIfResults (metrics (Some Sample_inputs.flat50)) (of_Z 20) (of_Z 0) None = Some r
       ∧ baseCpu r = of_Z 50
       ∧ simulatedCpu r = of_Z 60.
Proof.
  destruct (metric "cpu" (metrics (Some Sample_inputs.flat50))) as [c|] eqn:Hc;
    [|vm_compute in Hc; discriminate Hc].
  destruct (metric "storage" (metrics (Some Sample_inputs.flat50))) as [st|] eqn:Hs;
    [|vm_compute in Hs; discriminate Hs].
  destruct (proj2 whatIf_local_simulation _ (of_Z 20) (of_Z 0) c st Hc Hs)
    as (r & Hr & Hbc & _ & _ & _ & H60 & _).
  exists r. split; [exact Hr|].
  assert (Hb : baseCpu r = of_Z 50).
  { rewrite Hbc. vm_compute in Hc. injection Hc as <-. vm_compute. reflexivity. }
  split; [exact Hb|]. exact (H60 Hb eq_refl).
Defined.



End WhatIf.

Section RegionToggle.

Local Open Scope string_scope.
Import MultiRegionDashboard.

Implicit Types (name : string) (prev : list string) (s : State).

Lemma selectedRegions_toggle name s :
  selectedRegions (handleToggleRegion name s)
  = if bool_decide (name ∈ selectedRegions s)
    then filter (λ r, r ≠ name) (selectedRegions s)
    else (selectedRegions s ++ [name])%list.
Proof. reflexivity. Qed.

Lemma filter_absent name prev :
  name ∉ prev → filter (λ r, r ≠ name) prev = prev.
Proof.
  induction prev as [|r prev IH]; [done|].
  intros [Hr Hprev]%not_elem_of_cons.
  rewrite filter_cons_True by done. by rewrite IH.
Qed.

(** A selected region that is toggled twice moves to the end of the array. *)
Lemma toggle_selected name s :
  name ∈ selectedRegions s →
  selectedRegions (handleToggleRegion name (handleToggleRegion name s))
  = (filter (λ r, r ≠ name) (selectedRegions s) ++ [name])%list.
Proof.
  intros Hin. rewrite !selectedRegions_toggle.
  rewrite (bool_decide_eq_true_2 _ Hin).
  rewrite bool_decide_eq_false_2; [done|].
  rewrite list_elem_of_filter. intros [Hne _]. by apply Hne.
Qed.

(** Toggling a region changes membership of that region only. *)
Lemma elem_of_toggle name s x :
  x ∈ selectedRegions (handleToggleRegion name s)
  ↔ (x = name ∧ name ∉ selectedRegions s) ∨ (x ≠ name ∧ x ∈ selectedRegions s).
Proof.
  rewrite selectedRegions_toggle. case_bool_decide as Hin.
  - rewrite list_elem_of_filter.
    destruct (decide (x = name)) as [->|]; tauto.
  - rewrite elem_of_app, list_elem_of_singleton.
    destruct (decide (x = name)) as [->|]; tauto.
Qed.

(** C6. Toggling the same region twice gives back the original selected
    set: the same names are selected, the same regions are visible and the
    rest of the state is untouched.  When the region was not selected the
    array itself is restored; when it was, it ends up last in the array. *)
Theorem toggle_twice name s :
  let s2 := handleToggleRegion name (handleToggleRegion name s) in
  list_to_set (selectedRegions s2) =@{gset string} list_to_set (selectedRegions s)
  ∧ visibleRegions s2 = visibleRegions s
  ∧ allRegions s2 = allRegions s
  ∧ isLoading s2 = isLoading s
  ∧ error s2 = error s
  ∧ (name ∉ selectedRegions s → s2 = s).
Proof.
  intros s2.
  assert (Hmem : ∀ x, x ∈ selectedRegions s2 ↔ x ∈ selectedRegions s).
  { intros x. unfold s2. rewrite !elem_of_toggle.
    assert (Hrefl : name = name) by reflexivity.
    destruct (decide (x = name)) as [->|]; [|tauto].
    destruct (decide (name ∈ selectedRegions s)); tauto. }
  repeat split; try reflexivity.
  - apply set_eq. intros x. by rewrite !elem_of_list_to_set.
  - unfold visibleRegions. apply list_filter_iff. intros r. apply Hmem.
  - intros Hout. destruct s as [regs sel loading err]. unfold s2.
    unfold handleToggleRegion, setSelectedRegions. cbn in *.
    rewrite (bool_decide_eq_false_2 _ Hout).
    rewrite bool_decide_eq_true_2 by (apply elem_of_app; right; by left).
    rewrite filter_app, filter_absent by done.
    rewrite filter_cons_False by (intros Hne; by apply Hne).
    by rewrite filter_nil, app_nil_r.
Qed.

Lemma toggle_twice_witness :
  handleToggleRegion "North Europe" (handleToggleRegion "North Europe" initial)
  = initial.
Proof.
  apply (toggle_twice "North Europe" initial).
  vm_compute. intros Hin.
  repeat (apply elem_of_cons in Hin as [[=] | Hin]).
  by apply not_elem_of_nil in Hin.
Defined.

(** The array order is not preserved when the region was selected. *)
Example toggle_twice_order :
  selectedRegions (handleToggleRegion "East US" (handleToggleRegion "East US" initial))
  = ["West Europe"; "East US"].
Proof. reflexivity. Qed.

End RegionToggle.

Section HighRiskAlert.

Local Open Scope string_scope.
Import Forecasts Observe.

Implicit Types (rows : list CapacityRow.t) (ms : list Metric.t).

Lemma week4Alert_cases rows :
  (∃ w, week4 rows = Some w ∧ CapacityRow.status w = "Shortage"
        ∧ week4Alert rows
          = [ {| Alerts.resource := "Capacity (Week 4)";
                 Alerts.usage := CapacityRow.forecast w;
                 Alerts.threshold := CapacityRow.capacity w |} ])
  ∨ (¬ week4_shortage rows ∧ week4Alert rows = []).
Proof.
  unfold week4Alert, week4_shortage, week4.
  destruct (find _ rows) as [w|]; [|right; split; [by intros (? & [=] & _) | done]].
  destruct (String.eqb_spec (CapacityRow.status w) "Shortage") as [Hs|Hs].
  - left. by exists w.
  - right. split; [|done]. intros (w' & [= <-] & Hs'). done.
Qed.

Lemma cpuAlert_cases ms :
  (∃ m x, metric "cpu" ms = Some m ∧ last (Metric.forecast m) = Some x
          ∧ gt x (of_Z 80) = true
          ∧ cpuAlert ms
            = [ {| Alerts.resource := "CPU (next week)"; Alerts.usage := x;
                   Alerts.threshold := of_Z 80 |} ])
  ∨ (¬ cpu_above_80 ms ∧ cpuAlert ms = []).
Proof.
  unfold cpuAlert, cpu_above_80, metric.
  destruct (find _ ms) as [m|]; [|right; split; [by intros (? & ? & [=] & _) | done]].
  destruct (last (Metric.forecast m)) as [x|] eqn:Hlast;
    [|right; split; [intros (m' & x' & [= <-] & Hl & _); congruence | done]].
  destruct (gt x (of_Z 80)) eqn:Hgt.
  - left. by exists m, x.
  - right. split; [|done]. intros (m' & x' & [= <-] & Hl & Hgt'). congruence.
Qed.

(** C7. One run of the alert effect raises a high-risk notification exactly
    when the last CPU forecast entry is above 80 or the "Week 4" row exists
    with status "Shortage"; each condition raises its own notification (one
    about the CPU, one about week 4), so both holding raises two. *)
Theorem highRisk_trigger rows ms :
  (highRiskEffect rows ms ≠ [] ↔ cpu_above_80 ms ∨ week4_shortage rows)
  ∧ (week4_shortage rows ↔ week4Alert rows ≠ [])
  ∧ (cpu_above_80 ms ↔ cpuAlert ms ≠ [])
  ∧ length (highRiskEffect rows ms)
    = (length (week4Alert rows) + length (cpuAlert ms))%nat
  ∧ (week4_shortage rows → length (week4Alert rows) = 1%nat)
  ∧ (cpu_above_80 ms → length (cpuAlert ms) = 1%nat).
Proof.
  unfold highRiskEffect. rewrite length_app.
  destruct (week4Alert_cases rows) as [(w & Hw & Hs & ->) | [Hnw ->]];
    destruct (cpuAlert_cases ms) as [(m & x & Hm & Hx & Hgt & ->) | [Hnc ->]].
  - assert (week4_shortage rows) by (by exists w).
    assert (cpu_above_80 ms) by (by exists m, x).
    by repeat split; auto.
  - assert (week4_shortage rows) by (by exists w).
    by repeat split; auto.
  - assert (cpu_above_80 ms) by (by exists m, x).
    by repeat split; auto.
  - repeat split; try done; tauto.
Qed.

End HighRiskAlert.

Section FetchFailure.

Local Open Scope string_scope.

Implicit Types (api : Api) (message : string).

Lemma load_returns api (s : Forecasts.State) :
  ∃ s', Forecasts.load api s = (inr tt, s').
Proof.
  unfold Forecasts.load.
  destruct (fetchForecast7 api) as [r|msg] eqn:Hf;
    [destruct (fetchCapacityPlanning api (of_Z 10000) (of_Z 7)) as [c|msg] eqn:Hc|];
    eexists; cbv [mbind eff_bind Eff.bind Eff.try_catch_finally Eff.await Eff.set
                  Forecasts.setIsLoading Forecasts.setError Forecasts.setForecastData
                  Forecasts.setCapacityData];
    rewrite ?Hf, ?Hc; reflexivity.
Qed.

Lemma loadMultiRegionData_returns api (selected : list string)
    (s : MultiRegionDashboard.State) :
  ∃ s', MultiRegionDashboard.loadMultiRegionData api selected s = (inr tt, s').
Proof.
  unfold MultiRegionDashboard.loadMultiRegionData.
  cbv [mbind eff_bind Eff.bind Eff.try_catch_finally Eff.await Eff.set
       MultiRegionDashboard.setIsLoading MultiRegionDashboard.setError
       MultiRegionDashboard.setAllRegions].
  destruct (fetchMultiRegion api) as [r|msg]; [|by eexists].
  destruct (_ && _); by eexists.
Qed.

(** C8. A failed fetch never escapes from the loader.  In the forecast view
    a rejection of either request leaves the error message set, the forecast
    sequence equal to seven zeros and the loading flag cleared; in the
    multi-region view it leaves the error message set, the region list
    empty and the loading flag cleared. *)
Theorem fetch_failure_fallback api :
  (∀ s, ∃ s', Forecasts.load api s = (inr tt, s'))
  ∧ (∀ selected s,
       ∃ s', MultiRegionDashboard.loadMultiRegionData api selected s = (inr tt, s'))
  ∧ (∀ s message,
       fetchForecast7 api = Rejected message
       ∨ (∃ r, fetchForecast7 api = Resolved r
               ∧ fetchCapacityPlanning api (of_Z 10000) (of_Z 7) = Rejected message) →
       ∃ s', Forecasts.load api s = (inr tt, s')
             ∧ Forecasts.error s' = Some message
             ∧ Forecasts.forecastData s'
               = Some [of_Z 0; of_Z 0; of_Z 0; of_Z 0; of_Z 0; of_Z 0; of_Z 0]
             ∧ Forecasts.isLoading s' = false)
  ∧ (∀ selected s message,
       fetchMultiRegion api = Rejected message →
       ∃ s', MultiRegionDashboard.loadMultiRegionData api selected s = (inr tt, s')
             ∧ MultiRegionDashboard.error s' = Some message
             ∧ MultiRegionDashboard.allRegions s' = []
             ∧ MultiRegionDashboard.isLoading s' = false).
Proof.
  split; [apply load_returns|]. split; [intros; apply loadMultiRegionData_returns|].
  split.
  - intros s message Hfail. unfold Forecasts.load.
    cbv [mbind eff_bind Eff.bind Eff.try_catch_finally Eff.await Eff.set
         Forecasts.setIsLoading Forecasts.setError Forecasts.setForecastData
         Forecasts.setCapacityData].
    destruct Hfail as [-> | (r & -> & ->)]; eexists; (split; [reflexivity|]); done.
  - intros selected s message Hfail.
    unfold MultiRegionDashboard.loadMultiRegionData.
    cbv [mbind eff_bind Eff.bind Eff.try_catch_finally Eff.await Eff.set
         MultiRegionDashboard.setIsLoading MultiRegionDashboard.setError
         MultiRegionDashboard.setAllRegions].
    rewrite Hfail. eexists. split; [reflexivity|]. done.
Qed.

Lemma fetch_failure_fallback_witness :
  ∃ s', Forecasts.load Sample_inputs.backend_down Forecasts.initial = (inr tt, s')
        ∧ Forecasts.error s' = Some "Network Error"
        ∧ Forecasts.forecastData s'
          = Some [of_Z 0; of_Z 0; of_Z 0; of_Z 0; of_Z 0; of_Z 0; of_Z 0]
        ∧ Forecasts.isLoading s' = false.
Proof.
  apply (proj1 (proj2 (proj2 (fetch_failure_fallback Sample_inputs.backend_down)))).
  left. reflexivity.
Defined.

(** After a failed load the view shows the placeholder metrics and the
    built-in sample table. *)
Lemma failed_load_view api s s' message :
  fetchForecast7 api = Rejected message →
  Forecasts.load api s = (inr tt, s') →
  Forecasts.capacityData s' = Forecasts.capacityData s
  ∧ Observe.forecast_of "cpu" (Forecasts.metrics (Forecasts.forecastData s'))
    = Forecasts.Array_fill_0 7.
Proof.
  intros Hfail. unfold Forecasts.load.
  cbv [mbind eff_bind Eff.bind Eff.try_catch_finally Eff.await Eff.set
       Forecasts.setIsLoading Forecasts.setError Forecasts.setForecastData
       Forecasts.setCapacityData].
  rewrite Hfail. intros [= <-]. split; [done|]. vm_compute. reflexivity.
Qed.

End FetchFailure.

Section CapacityTable.

Local Open Scope string_scope.
Import Forecasts.

Implicit Types (cd : option CapacityResponse) (fd : option (list number)).

Lemma capacityRows_fallback cd fd :
  cd = None ∨ fd = None →
  capacityRows cd fd = capacityRows None None.
Proof. intros [-> | ->]; [done | by destruct cd]. Qed.

Lemma capacityRows_fetched (c : CapacityResponse) (data : list number)
    (idx : nat) (r : CapacityRow.t) :
  capacityRows (Some c) (Some data) !! idx = Some r →
  let source := or_else (data !! idx) (or_else (avg_forecast c) (of_Z 0)) in
  let weekCapacity := (or_else (capacity c) (of_Z 10000) + of_nat idx * of_Z 100)%num in
  (idx < 4)%nat
  ∧ CapacityRow.forecast r = toFixed2 source
  ∧ CapacityRow.capacity r = weekCapacity
  ∧ CapacityRow.gap r = toFixed2 (weekCapacity - source)%num
  ∧ CapacityRow.status r = getRisk source weekCapacity.
Proof.
  unfold capacityRows.
  do 4 (destruct idx as [|idx]; [intros [= <-]; cbn; repeat split; lia|]).
  done.
Qed.

(** C9, as the code has it.  The capacity table always has the 4 rows
    "Week 1" to "Week 4", in this order.  In the fallback table every gap is
    the row's capacity minus the row's forecast.  In the fetched table the
    row's forecast is the source forecast of that week rounded to 2
    decimals, and the gap is the row's capacity minus the source forecast
    (not the rounded one), rounded to 2 decimals. *)
Theorem capacityRows_table cd fd :
  CapacityRow.date <$> capacityRows cd fd = ["Week 1"; "Week 2"; "Week 3"; "Week 4"]
  ∧ length (capacityRows cd fd) = 4%nat
  ∧ (cd = None ∨ fd = None →
     ∀ r, r ∈ capacityRows cd fd →
          CapacityRow.gap r = (CapacityRow.capacity r - CapacityRow.forecast r)%num)
  ∧ (∀ c data idx r,
       cd = Some c → fd = Some data →
       capacityRows cd fd !! idx = Some r →
       let source := or_else (data !! idx) (or_else (avg_forecast c) (of_Z 0)) in
       CapacityRow.forecast r = toFixed2 source
       ∧ CapacityRow.capacity r
         = (or_else (capacity c) (of_Z 10000) + of_nat idx * of_Z 100)%num
       ∧ CapacityRow.gap r = toFixed2 (CapacityRow.capacity r - source)%num).
Proof.
  split; [by destruct cd, fd|]. split; [by destruct cd, fd|]. split.
  - intros Hfb. rewrite (capacityRows_fallback _ _ Hfb). intros r Hr.
    cbn in Hr.
    repeat (apply elem_of_cons in Hr as [-> | Hr]; [reflexivity|]).
    by apply not_elem_of_nil in Hr.
  - intros c data idx r -> -> Hr.
    destruct (capacityRows_fetched c data idx r Hr) as (_ & Hf & Hc & Hg & _).
    cbn zeta. by rewrite Hc.
Qed.

Lemma capacityRows_table_witness :
  ∃ r, capacityRows (Some Sample_inputs.plan_10000) (Some Sample_inputs.eighths)
         !! 0%nat = Some r
       ∧ CapacityRow.gap r
         = toFixed2
             (CapacityRow.capacity r
              - or_else (Sample_inputs.eighths !! 0%nat)
                  (or_else (avg_forecast Sample_inputs.plan_10000) (of_Z 0)))%num.
Proof.
  destruct (capacityRows (Some Sample_inputs.plan_10000) (Some Sample_inputs.eighths)
              !! 0%nat) as [r|] eqn:Hr; [|vm_compute in Hr; discriminate].
  exists r. split; [reflexivity|].
  exact (proj2 (proj2 (proj2 (proj2 (proj2 (capacityRows_table
           (Some Sample_inputs.plan_10000) (Some Sample_inputs.eighths))))
           Sample_inputs.plan_10000 Sample_inputs.eighths 0%nat r
           eq_refl eq_refl Hr))).
Defined.

(** C9, as the spec words it, fails in the fetched table: with a source
    forecast of 0.125 and a capacity of 10000 the row shows forecast 0.13,
    capacity 10000 and gap 9999.88, whereas capacity minus forecast is
    9999.87. *)
Lemma gap_counterexample :
  ∃ r, capacityRows (Some Sample_inputs.plan_10000) (Some Sample_inputs.eighths)
         !! 0%nat = Some r
       ∧ CapacityRow.forecast r = dec 13 2
       ∧ CapacityRow.capacity r = of_Z 10000
       ∧ CapacityRow.gap r = dec 999988 2
       ∧ toFixed2 (CapacityRow.capacity r - CapacityRow.forecast r)%num = dec 999987 2
       ∧ dec 999988 2 ≠ dec 999987 2.
Proof.
  destruct (capacityRows (Some Sample_inputs.plan_10000) (Some Sample_inputs.eighths)
              !! 0%nat) as [r|] eqn:Hr; [|vm_compute in Hr; discriminate].
  exists r. split; [reflexivity|].
  vm_compute in Hr. injection Hr as <-.
  vm_compute. repeat split. discriminate.
Qed.

End CapacityTable.

Section NotificationBell.

Local Open Scope string_scope.
Import Header.

Implicit Types (api : Api) (s : State).

(** C10. Opening the bell always completes, shows the popover and clears
    the loading flag.  If the alerts fetch fails the notifications are the
    single entry of type "system" and severity "low" saying that the backend
    is not responding; if it succeeds they are the [alerts] array of the
    response, or the empty list when that field is not an array. *)
Theorem bell_notifications api s :
  showNotifications s = false →
  ∃ s', handleBellClick api s = (inr tt, s')
        ∧ showNotifications s' = true
        ∧ notifLoading s' = false
        ∧ (∀ message, fetchAlerts api (of_Z 80) = Rejected message →
             notifications s'
             = [ {| Notification.type := "system";
                    Notification.message :=
                      "Notifications unavailable. Backend not responding.";
                    Notification.severity := "low" |} ])
        ∧ (∀ data items, fetchAlerts api (of_Z 80) = Resolved data →
             alerts data = alerts_array items → notifications s' = items)
        ∧ (∀ data, fetchAlerts api (of_Z 80) = Resolved data →
             alerts data = alerts_not_array → notifications s' = []).
Proof.
  intros Hclosed. unfold handleBellClick.
  cbv [mbind eff_bind Eff.bind Eff.try_catch_finally Eff.await Eff.set Eff.get
       setShowNotifications setNotifications setNotifLoading].
  rewrite Hclosed. cbn [negb].
  destruct (fetchAlerts api (of_Z 80)) as [data|msg].
  - destruct (alerts data) as [items|] eqn:Ha; eexists; (split; [reflexivity|]);
      repeat split; try done.
    + intros data' items' [= <-] Hi. rewrite Ha in Hi. by injection Hi.
    + intros data' [= <-] Hi. by rewrite Ha in Hi.
    + intros data' items' [= <-] Hi. by rewrite Ha in Hi.
  - eexists. split; [reflexivity|]. repeat split; done.
Qed.

Lemma bell_notifications_witness :
  ∃ s', handleBellClick Sample_inputs.backend_down initial = (inr tt, s')
        ∧ notifications s' = [unavailable].
Proof.
  destruct (bell_notifications Sample_inputs.backend_down initial eq_refl)
    as (s' & Hrun & _ & _ & Hfail & _).
  exists s'. split; [exact Hrun|].
  exact (Hfail "Network Error" eq_refl).
Defined.

(** Closing the bell fetches nothing and keeps the notifications. *)
Lemma bell_close api s :
  showNotifications s = true →
  ∃ s', handleBellClick api s = (inr tt, s')
        ∧ showNotifications s' = false
        ∧ notifications s' = notifications s.
Proof.
  intros Hopen. unfold handleBellClick.
  cbv [mbind eff_bind Eff.bind Eff.get Eff.set setShowNotifications].
  rewrite Hopen. by eexists.
Qed.

End NotificationBell.

(** * Further properties of the views *)

Section MetricShape.

Local Open Scope string_scope.
Import Forecasts Observe ObserveMore.

(** X1. Whatever the forecast data, the view derives exactly the three
    metrics cpu, storage and network, in this order and with the units %,
    TB and Mbps; their three forecast sequences have the same number of
    entries: 7 without data, else the number of inputs capped at 7, so
    between 1 and 7. *)
Theorem metrics_shape (fd : option (list number)) :
  Metric.id <$> metrics fd = ["cpu"; "storage"; "network"]
  ∧ Metric.unit <$> metrics fd = ["%"; "TB"; "Mbps"]
  ∧ (∀ m, m ∈ metrics fd → length (Metric.forecast m) = horizon fd)
  ∧ (1 ≤ horizon fd ≤ 7)%nat.
Proof.
  destruct fd as [[|v data]|]; (split; [reflexivity|]); (split; [reflexivity|]);
    (split; [|unfold horizon; cbn [length]; lia]); intros m Hm; cbn in Hm;
    repeat (apply elem_of_cons in Hm as [-> | Hm]; [try reflexivity|]);
    try (by apply not_elem_of_nil in Hm);
    cbn [Metric.forecast horizon length]; rewrite ?length_fmap, ?length_take; lia.
Qed.

End MetricShape.

Section Recommendations.

Local Open Scope string_scope.
Import Forecasts Observe ForecastsView.

Implicit Types (ms : list Metric.t) (o : OptimizationResponse) (pct : number).

(** A percentage at most 50 is not at least 85. *)
Lemma le_50_not_ge_85 pct : le pct (of_Z 50) = true → ge pct (of_Z 85) = false.
Proof.
  unfold le, ge, SFleb.
  set (c50 := of_Z 50). vm_compute in c50. subst c50.
  set (c85 := of_Z 85). vm_compute in c85. subst c85.
  destruct pct as [[]|[]| |[] m e]; cbn [SFcompare]; try done.
  destruct (Z.compare_spec e (-47)) as [-> | Hlt | Hgt]; [done | | done].
  intros _. assert (H : (-46 ?= e)%Z = Gt) by (apply Z.compare_gt_iff; lia).
  by rewrite H.
Qed.

(** X2. The local recommendation is "High Load" (+12%) exactly when the
    forecast percentage is at least 85, "Low Load" (-15%) exactly when it is
    at most 50, and "Moderate Load" (no change) otherwise, which includes a
    NaN percentage; the two thresholds exclude each other.  The region,
    resource and percentage are passed through. *)
Theorem capacity_recommendation_levels (region resource : string) pct :
  let r := getCapacityRecommendation region resource pct in
  (Recommendation.level r = "High Load" ↔ ge pct (of_Z 85) = true)
  ∧ (Recommendation.level r = "Low Load" ↔ le pct (of_Z 50) = true)
  ∧ (Recommendation.level r = "Moderate Load"
     ↔ ge pct (of_Z 85) = false ∧ le pct (of_Z 50) = false)
  ∧ (Recommendation.level r = "High Load" →
     Recommendation.delta r = of_Z 12
     ∧ Recommendation.text r = "Increase " +:+ resource +:+ " capacity by +12%")
  ∧ (Recommendation.level r = "Low Load" →
     Recommendation.delta r = of_Z 15
     ∧ Recommendation.text r
       = "Consider reducing " +:+ resource +:+ " capacity by -15% to save cost")
  ∧ (Recommendation.level r = "Moderate Load" →
     Recommendation.delta r = of_Z 0
     ∧ Recommendation.text r
       = "Keep " +:+ resource +:+ " capacity steady and monitor usage")
  ∧ Recommendation.region r = region
  ∧ Recommendation.resource r = resource
  ∧ Recommendation.forecastPct r = pct.
Proof.
  intros r. subst r. unfold getCapacityRecommendation.
  pose proof (le_50_not_ge_85 pct) as Hex.
  destruct (ge pct (of_Z 85)) eqn:Hge.
  - destruct (le pct (of_Z 50)) eqn:Hle; [by specialize (Hex eq_refl)|].
    cbn. repeat split; try done; by intros [].
  - destruct (le pct (of_Z 50)) eqn:Hle; cbn; repeat split; try done; by intros [].
Qed.

(** The percentage a recommendation is computed from. *)
Lemma recommendation_pct ms (region : string) (opt : option OptimizationResponse)
    (i : nat) (r : Recommendation.t) :
  recommendations ms region opt !! i = Some r →
  ∃ m, ms !! i = Some m
       ∧ Recommendation.resource r = Metric.title m
       ∧ Recommendation.region r = region
       ∧ Recommendation.forecastPct r
         = (if String.eqb (Metric.unit m) "%"
            then default (Metric.current m) (last (Metric.forecast m))
            else Math_min (of_Z 100)
                   (Math_round (default (Metric.current m) (last (Metric.forecast m))))).
Proof.
  unfold recommendations.
  destruct opt as [o|]; [destruct (str_truthy (recommendation o))|];
    rewrite list_lookup_fmap; destruct (ms !! i) as [m|]; try done;
    intros [= <-]; exists m; repeat split; try done;
    unfold getCapacityRecommendation;
    by destruct (ge _ _); [|destruct (le _ _)].
Qed.

(** X3. There is one recommendation per metric, in the order of the
    metrics and named after the metric's title.  For a metric whose unit is
    not "%" the percentage is [Math.min(100, Math.round(next))], so it is
    never above 100; for the "%" metric it is the last forecast value as it
    is, without a cap. *)
Theorem recommendations_percentage ms (region : string)
    (opt : option OptimizationResponse) :
  Recommendation.resource <$> recommendations ms region opt = Metric.title <$> ms
  ∧ (∀ i r m,
       recommendations ms region opt !! i = Some r → ms !! i = Some m →
       (Metric.unit m ≠ "%" → gt (Recommendation.forecastPct r) (of_Z 100) = false)
       ∧ (Metric.unit m = "%" →
          Recommendation.forecastPct r
          = default (Metric.current m) (last (Metric.forecast m)))).
Proof.
  split.
  - apply list_eq. intros i. rewrite !list_lookup_fmap.
    destruct (recommendations ms region opt !! i) as [r|] eqn:Hr.
    + destruct (recommendation_pct _ _ _ _ _ Hr) as (m & Hm & Hres & _).
      rewrite Hm. cbn. by rewrite Hres.
    + apply lookup_ge_None in Hr.
      assert (Hlen : length (recommendations ms region opt) = length ms).
      { unfold recommendations.
        destruct opt as [o|]; [destruct (str_truthy _)|]; by rewrite length_fmap. }
      rewrite Hlen in Hr. by rewrite (lookup_ge_None_2 _ _ Hr).
  - intros i r m Hr Hm.
    destruct (recommendation_pct _ _ _ _ _ Hr) as (m' & Hm' & _ & _ & Hpct).
    rewrite Hm in Hm'. injection Hm' as <-. rewrite Hpct. split.
    + intros Hunit. apply String.eqb_neq in Hunit. rewrite Hunit.
      apply Math_min_not_above.
    + intros Hunit. apply String.eqb_eq in Hunit. by rewrite Hunit.
Qed.

(** X4. A backend response is used only when it carries a non-empty
    recommendation text: then every recommendation shows that text, the
    response's status (or "Moderate Load" when it has none) and its
    suggested change (or 0).  A response without recommendation text is
    ignored as a whole and the local thresholds decide. *)
Theorem recommendations_override ms (region : string) o :
  (str_truthy (recommendation o) = false →
   recommendations ms region (Some o) = recommendations ms region None)
  ∧ (∀ advice, recommendation o = Some advice → advice ≠ "" →
     ∀ r, r ∈ recommendations ms region (Some o) →
          Recommendation.text r = advice
          ∧ Recommendation.level r = str_or (status o) "Moderate Load"
          ∧ Recommendation.delta r = or_else (suggested_change o) (of_Z 0)).
Proof.
  unfold recommendations. split.
  - by intros ->.
  - intros advice Hadv Hne r. rewrite Hadv.
    apply String.eqb_neq in Hne. cbn [str_truthy str_or]. rewrite Hne. cbn [negb].
    intros (m & -> & _)%list_elem_of_fmap. done.
Qed.

End Recommendations.

Section FiltersAndSlides.

Local Open Scope string_scope.
Import Forecasts Observe ForecastsView.

Implicit Types (fd : option (list number)) (filters : Filters.t).

Lemma metrics_ids fd :
  ∃ c s n, metrics fd = [c; s; n]
           ∧ Metric.id c = "cpu" ∧ Metric.id s = "storage" ∧ Metric.id n = "network".
Proof. destruct fd as [[|v data]|]; by do 3 eexists. Qed.

(** What each service filter keeps of the derived metrics. *)
Lemma filtered_metrics_cases fd filters :
  (Filters.service filters = "Compute" →
   Metric.id <$> filteredMetrics (metrics fd) filters = ["cpu"])
  ∧ (Filters.service filters = "Storage" →
     Metric.id <$> filteredMetrics (metrics fd) filters = ["storage"])
  ∧ (Filters.service filters ≠ "Compute" → Filters.service filters ≠ "Storage" →
     filteredMetrics (metrics fd) filters = metrics fd).
Proof.
  destruct (metrics_ids fd) as (c & s & n & -> & Hc & Hs & Hn).
  unfold filteredMetrics.
  destruct (String.eqb_spec (Filters.service filters) "") as [He|He].
  { repeat split; try done; congruence. }
  destruct (String.eqb_spec (Filters.service filters) "Compute") as [Hcomp|Hcomp].
  { cbn [List.filter]. rewrite Hc, Hs, Hn. cbn. rewrite Hc.
    repeat split; try done; congruence. }
  destruct (String.eqb_spec (Filters.service filters) "Storage") as [Hsto|Hsto].
  { cbn [List.filter]. rewrite Hc, Hs, Hn. cbn. rewrite Hs.
    repeat split; try done; congruence. }
  cbn [List.filter]. rewrite Hc, Hs, Hn. cbn.
  repeat split; try done; congruence.
Qed.

(** The filtered metrics are one metric or all three. *)
Lemma filtered_metrics_length fd filters :
  length (filteredMetrics (metrics fd) filters) = 1%nat
  ∨ length (filteredMetrics (metrics fd) filters) = 3%nat.
Proof.
  destruct (filtered_metrics_cases fd filters) as (Hcomp & Hsto & Hall).
  destruct (decide (Filters.service filters = "Compute")) as [Hc|Hc].
  { left. rewrite <- (length_fmap Metric.id), (Hcomp Hc). done. }
  destruct (decide (Filters.service filters = "Storage")) as [Hs|Hs].
  { left. rewrite <- (length_fmap Metric.id), (Hsto Hs). done. }
  right. rewrite (Hall Hc Hs).
  destruct (metrics_ids fd) as (c & s & n & -> & _). done.
Qed.

(** X5. On the derived metrics the service filter "Compute" keeps the cpu
    metric only and "Storage" the storage metric only; no filter, or any
    other service name (such as "Network"), keeps all three metrics.  The
    filtered list therefore has 1 or 3 entries and is never empty. *)
Theorem filtered_metrics_services fd filters :
  (Filters.service filters = "Compute" →
   Metric.id <$> filteredMetrics (metrics fd) filters = ["cpu"])
  ∧ (Filters.service filters = "Storage" →
     Metric.id <$> filteredMetrics (metrics fd) filters = ["storage"])
  ∧ (Filters.service filters ≠ "Compute" → Filters.service filters ≠ "Storage" →
     filteredMetrics (metrics fd) filters = metrics fd)
  ∧ (length (filteredMetrics (metrics fd) filters) = 1%nat
     ∨ length (filteredMetrics (metrics fd) filters) = 3%nat).
Proof.
  destruct (filtered_metrics_cases fd filters) as (Hcomp & Hsto & Hall).
  pose proof (filtered_metrics_length fd filters) as Hlen.
  repeat split; assumption.
Qed.

Lemma slide_cycle (n i : nat) :
  n = 1%nat ∨ n = 3%nat → (i < n)%nat →
  as_index (nextSlide n (of_nat i)) = Some ((i + 1) `mod` n)%nat
  ∧ as_index (prevSlide n (of_nat i)) = Some ((i + n - 1) `mod` n)%nat
  ∧ prevSlide n (nextSlide n (of_nat i)) = of_nat i
  ∧ nextSlide n (prevSlide n (of_nat i)) = of_nat i
  ∧ as_index (of_nat i) = Some i.
Proof.
  intros [-> | ->] Hi.
  - assert (i = 0)%nat as -> by lia. vm_compute. auto.
  - assert (i = 0 ∨ i = 1 ∨ i = 2)%nat as [-> | [-> | ->]] by lia;
      vm_compute; auto.
Qed.

(** X6. With [len] the number of filtered metrics of any derived data and
    any filter, and the slide index at a position [i < len]: "Next" moves
    to [(i + 1) mod len] and "Previous" to [(i - 1) mod len], each undoes
    the other, and the metric shown at the new index exists.  In
    particular the remainder is never taken by zero. *)
Theorem slides_cycle fd filters (i : nat) :
  let filtered := filteredMetrics (metrics fd) filters in
  let len := length filtered in
  (i < len)%nat →
  as_index (nextSlide len (of_nat i)) = Some ((i + 1) `mod` len)%nat
  ∧ as_index (prevSlide len (of_nat i)) = Some ((i + len - 1) `mod` len)%nat
  ∧ prevSlide len (nextSlide len (of_nat i)) = of_nat i
  ∧ nextSlide len (prevSlide len (of_nat i)) = of_nat i
  ∧ is_Some (activeMetric filtered (nextSlide len (of_nat i)))
  ∧ is_Some (activeMetric filtered (prevSlide len (of_nat i))).
Proof.
  intros filtered len Hi.
  assert (Hlen : len = 1%nat ∨ len = 3%nat)
    by apply (filtered_metrics_length fd filters).
  destruct (slide_cycle len i Hlen Hi) as (Hn & Hp & Hpn & Hnp & _).
  repeat split; try done.
  - unfold activeMetric, lookup_number. rewrite Hn. cbn [mbind option_bind].
    apply lookup_lt_is_Some. apply Nat.mod_upper_bound. lia.
  - unfold activeMetric, lookup_number. rewrite Hp. cbn [mbind option_bind].
    apply lookup_lt_is_Some. apply Nat.mod_upper_bound. lia.
Qed.

Lemma slides_cycle_witness :
  as_index (nextSlide 3 (of_nat 2)) = Some 0%nat
  ∧ prevSlide 3 (nextSlide 3 (of_nat 2)) = of_nat 2.
Proof.
  pose proof (slides_cycle None
    {| Filters.region := ""; Filters.service := ""; Filters.timeHorizon := "" |} 2)
    as H.
  cbn zeta in H.
  destruct H as (Hn & _ & Hpn & _); [vm_compute; lia|].
  split; [exact Hn | exact Hpn].
Defined.

Lemma clamp_small (n' i : nat) :
  n' = 1%nat ∨ n' = 3%nat → (i < 3)%nat →
  clampSlide n' (of_nat i) = of_nat (Nat.min i (n' - 1)).
Proof.
  intros [-> | ->] Hi;
    assert (i = 0 ∨ i = 1 ∨ i = 2)%nat as [-> | [-> | ->]] by lia;
    vm_compute; reflexivity.
Qed.

(** The number of filtered metrics depends on the filter only. *)
Lemma filtered_metrics_length_data fd fd' filters :
  length (filteredMetrics (metrics fd') filters)
  = length (filteredMetrics (metrics fd) filters).
Proof.
  destruct (filtered_metrics_cases fd filters) as (Hcomp & Hsto & Hall).
  destruct (filtered_metrics_cases fd' filters) as (Hcomp' & Hsto' & Hall').
  destruct (decide (Filters.service filters = "Compute")) as [Hc|Hc].
  { by rewrite <- !(length_fmap Metric.id), (Hcomp Hc), (Hcomp' Hc). }
  destruct (decide (Filters.service filters = "Storage")) as [Hs|Hs].
  { by rewrite <- !(length_fmap Metric.id), (Hsto Hs), (Hsto' Hs). }
  rewrite (Hall Hc Hs), (Hall' Hc Hs).
  destruct (metrics_ids fd) as (c & s & n & -> & _).
  destruct (metrics_ids fd') as (c' & s' & n' & -> & _). done.
Qed.

(** X7. After a render with new data or new filters, the two effects on
    the slide index leave it at 0 when the filters object changed and where
    it was when it did not (then only the data changed, and the number of
    filtered metrics is the same).  So the clamp never moves the index: the
    number of filtered metrics changes only with the filters, and then the
    index has been reset to 0 before the clamp is applied.  In both cases
    a metric exists at the resulting index. *)
Theorem slides_after_change fd filters fd' filters' (filtersChanged : bool)
    (i : nat) :
  let len := length (filteredMetrics (metrics fd) filters) in
  let filtered' := filteredMetrics (metrics fd') filters' in
  let len' := length filtered' in
  let slide' := slideEffects filtersChanged len len' (of_nat i) in
  (i < len)%nat →
  (filtersChanged = false → filters' = filters) →
  (filtersChanged = true → slide' = of_Z 0)
  ∧ (filtersChanged = false → len' = len ∧ slide' = of_nat i)
  ∧ (len' ≠ len → filtersChanged = true)
  ∧ clampSlide len' resetSlide = resetSlide
  ∧ is_Some (activeMetric filtered' slide').
Proof.
  intros len filtered' len' slide' Hi Hsame.
  assert (Hlen : len = 1%nat ∨ len = 3%nat)
    by apply (filtered_metrics_length fd filters).
  assert (Hlen' : len' = 1%nat ∨ len' = 3%nat)
    by apply (filtered_metrics_length fd' filters').
  assert (Hclamp : clampSlide len' resetSlide = resetSlide).
  { apply (clamp_small len' 0 Hlen'). lia. }
  assert (Hidx : ∀ j, (j < 3)%nat → as_index (of_nat j) = Some j).
  { intros j Hj.
    assert (j = 0 ∨ j = 1 ∨ j = 2)%nat as [-> | [-> | ->]] by lia; reflexivity. }
  assert (Hkeep : filtersChanged = false → len' = len).
  { intros Hf. subst len len' filtered'. rewrite (Hsame Hf).
    apply filtered_metrics_length_data. }
  assert (Hreset : filtersChanged = true → slide' = of_Z 0).
  { intros ->. subst slide'. unfold slideEffects.
    destruct (len' =? len)%nat; [done | exact Hclamp]. }
  assert (Hstay : filtersChanged = false → slide' = of_nat i).
  { intros Hf. subst slide'. unfold slideEffects.
    rewrite (Hkeep Hf), Nat.eqb_refl, Hf. done. }
  repeat split.
  - exact Hreset.
  - by apply Hkeep.
  - by apply Hstay.
  - intros Hne. destruct filtersChanged; [done|]. by destruct Hne; apply Hkeep.
  - exact Hclamp.
  - unfold activeMetric, lookup_number. destruct filtersChanged.
    + rewrite Hreset by done. change (as_index (of_Z 0)) with (Some 0%nat).
      cbn [mbind option_bind]. apply lookup_lt_is_Some. fold len'. lia.
    + rewrite Hstay by done. rewrite Hidx by lia.
      cbn [mbind option_bind]. apply lookup_lt_is_Some. fold len'.
      rewrite Hkeep by done. exact Hi.
Qed.

Lemma slides_after_change_witness :
  slideEffects true 3 1 (of_nat 2) = of_Z 0.
Proof.
  pose proof (slides_after_change None
    {| Filters.region := ""; Filters.service := ""; Filters.timeHorizon := "" |}
    None
    {| Filters.region := ""; Filters.service := "Compute"; Filters.timeHorizon := "" |}
    true 2) as H.
  cbn zeta in H.
  destruct H as (Hc & _); [vm_compute; lia | discriminate |].
  exact (Hc eq_refl).
Defined.

End FiltersAndSlides.

Section WhatIfCharts.

Local Open Scope string_scope.
Import Forecasts Observe ObserveMore ForecastsView.

Implicit Types (wb : option WhatIfResponse) (cd : option CapacityResponse).

(** X8. The what-if chart has one point per index below the shorter of the
    two base series, named "Day 1", "Day 2", ...; it is empty without a
    backend response.  At an index the simulated series does not reach, the
    simulated value is the base value, so the two lines coincide there;
    where it does reach, it is that simulated value rounded to 2
    decimals. *)
Theorem whatIf_series wb :
  length (whatIfCombinedSeries wb)
  = Nat.min (length (array_of wb base_cpu)) (length (array_of wb base_storage))
  ∧ (wb = None → whatIfCombinedSeries wb = [])
  ∧ (∀ i p,
       whatIfCombinedSeries wb !! i = Some p →
       SeriesPoint.name p = "Day " +:+ pretty (i + 1)%nat
       ∧ (∃ b, array_of wb base_cpu !! i = Some b ∧ SeriesPoint.baseCpu p = toFixed2 b)
       ∧ (∃ b, array_of wb base_storage !! i = Some b
               ∧ SeriesPoint.baseStorage p = toFixed2 b)
       ∧ (array_of wb simulated_cpu !! i = None →
          SeriesPoint.simCpu p = SeriesPoint.baseCpu p)
       ∧ (array_of wb simulated_storage !! i = None →
          SeriesPoint.simStorage p = SeriesPoint.baseStorage p)
       ∧ (∀ v, array_of wb simulated_cpu !! i = Some v →
               SeriesPoint.simCpu p = toFixed2 v)
       ∧ (∀ v, array_of wb simulated_storage !! i = Some v →
               SeriesPoint.simStorage p = toFixed2 v)).
Proof.
  unfold whatIfCombinedSeries. split; [by rewrite length_fmap, length_seq|].
  split; [by intros ->|].
  intros i p. rewrite list_lookup_fmap.
  destruct (seq 0 _ !! i) as [j|] eqn:Hj; [|done].
  apply lookup_seq in Hj as [-> Hi]. cbn [fmap option_fmap option_map Nat.add].
  intros [= <-]. cbn [SeriesPoint.name SeriesPoint.baseCpu SeriesPoint.simCpu
                      SeriesPoint.baseStorage SeriesPoint.simStorage].
  destruct (lookup_lt_is_Some_2 (array_of wb base_cpu) i) as [bc Hbc]; [lia|].
  destruct (lookup_lt_is_Some_2 (array_of wb base_storage) i) as [bs Hbs]; [lia|].
  rewrite Hbc, Hbs. cbn [default].
  split; [done|]. split; [by exists bc|]. split; [by exists bs|].
  split; [by intros ->|]. split; [by intros ->|].
  split; intros v ->; done.
Qed.

Lemma sub_self (a : number) : (a - a)%num = S754_zero false ∨ (a - a)%num = NaN.
Proof.
  unfold Num.sub.
  destruct a as [[]|[]| |s m e]; cbn [SFsub]; auto.
  left. rewrite Z.sub_diag. reflexivity.
Qed.

Lemma sub_self_finite (a : number) :
  (Number_isFinite a = true → (a - a)%num = S754_zero false)
  ∧ (Number_isFinite a = false → (a - a)%num = NaN).
Proof.
  unfold Num.sub.
  destruct a as [[]|[]| |s m e]; cbn [SFsub Number_isFinite]; split; try done.
  intros _. rewrite Z.sub_diag. reflexivity.
Qed.

Lemma Math_max_positive_not_zero (m : positive) (e : Z) (a : number) (s : bool) :
  Math_max (S754_finite false m e) a ≠ S754_zero s.
Proof.
  unfold Math_max.
  destruct a as [sa|sa| |sa ma ea]; try done; by destruct (SFltb _ _).
Qed.

(** The maximum of a positive constant and a finite number is a positive
    finite number. *)
Lemma Math_max_positive_finite (m : positive) (e : Z) (a : number) :
  Number_isFinite a = true →
  ∃ m' e', Math_max (S754_finite false m e) a = S754_finite false m' e'.
Proof.
  unfold Math_max.
  destruct a as [sa|sa| |sa ma ea]; try done; intros _.
  - destruct (SFltb _ _) eqn:Hlt; [|by eexists _, _].
    by destruct sa.
  - destruct (SFltb _ _) eqn:Hlt; [|by eexists _, _].
    destruct sa; [|by eexists _, _]. done.
Qed.

(** A difference [a - a], divided by a maximum with a positive constant
    and taken as a percentage, is a zero or NaN. *)
Lemma no_change_percentage (m : positive) (e : Z) (a : number) :
  let pct := (((a - a) / Math_max (S754_finite false m e) a) * of_Z 100)%num in
  (∃ s, pct = S754_zero s) ∨ pct = NaN.
Proof.
  intros pct. subst pct.
  pose proof (Math_max_positive_not_zero m e a) as Hnz.
  set (c100 := of_Z 100). vm_compute in c100. subst c100.
  unfold Num.div, Num.mul.
  destruct (sub_self a) as [-> | ->]; [|by right].
  destruct (Math_max (S754_finite false m e) a) as [sd|sd| |sd md ed];
    cbn [SFdiv SFmul]; [by destruct (Hnz sd) | left | by right | left]; by eexists.
Qed.

(** It is the zero for a finite [a] and NaN for any other [a]. *)
Lemma no_change_percentage_finite (m : positive) (e : Z) (a : number) :
  let pct := (((a - a) / Math_max (S754_finite false m e) a) * of_Z 100)%num in
  (Number_isFinite a = true → pct = S754_zero false)
  ∧ (Number_isFinite a = false → pct = NaN).
Proof.
  intros pct. subst pct.
  set (c100 := of_Z 100). vm_compute in c100. subst c100.
  destruct (sub_self_finite a) as [Hfin Hinf].
  unfold Num.div, Num.mul. split; intros Ha.
  - fold (Num.sub a a). rewrite (Hfin Ha).
    destruct (Math_max_positive_finite m e a Ha) as (m' & e' & ->). reflexivity.
  - fold (Num.sub a a). rewrite (Hinf Ha). reflexivity.
Qed.

(** X9. The capacity requirement is absent exactly when the backend gives
    no base CPU series or no base storage series (missing or empty).
    Without a simulated CPU series the simulated average is the base
    average, the action is "Keep steady", and the CPU change is 0 when the
    base average is finite and NaN when it is not.  Without a simulated
    storage series the simulated average is the base average, and the
    storage change is printed as "0.0" when the base average is finite and
    as "NaN" when it is not. *)
Theorem capacityRequirement_without_simulation wb cd :
  (capacityRequirement wb cd = None
   ↔ array_of wb base_cpu = [] ∨ array_of wb base_storage = [])
  ∧ (∀ r, capacityRequirement wb cd = Some r →
          array_of wb simulated_cpu = [] →
          Requirement.simCpuAvg r = Requirement.baseCpuAvg r
          ∧ Requirement.action r = "Keep steady"
          ∧ (Number_isFinite (Requirement.baseCpuAvg r) = true →
             Requirement.cpuDelta r = of_Z 0)
          ∧ (Number_isFinite (Requirement.baseCpuAvg r) = false →
             Requirement.cpuDelta r = NaN))
  ∧ (∀ r, capacityRequirement wb cd = Some r →
          array_of wb simulated_storage = [] →
          Requirement.simStorAvg r = Requirement.baseStorAvg r
          ∧ (Number_isFinite (Requirement.baseStorAvg r) = true →
             Requirement.storDelta r = "0.0")
          ∧ (Number_isFinite (Requirement.baseStorAvg r) = false →
             Requirement.storDelta r = "NaN")).
Proof.
  unfold capacityRequirement.
  destruct (array_of wb base_cpu) as [|b bc] eqn:Hbc;
    [by repeat split; auto|].
  destruct (array_of wb base_storage) as [|b' bs] eqn:Hbs;
    [by repeat split; auto|].
  cbn [length Nat.eqb orb]. split; [split; [done | by intros [|]] |].
  split.
  - intros r [= <-] ->. cbn [length Nat.eqb Requirement.simCpuAvg
                             Requirement.baseCpuAvg Requirement.action
                             Requirement.cpuDelta].
    split; [done|].
    set (c1 := of_Z 1). vm_compute in c1. subst c1.
    destruct (no_change_percentage_finite 4503599627370496 (-52) (avg (b :: bc)))
      as [Hfin Hinf].
    split; [|split].
    + destruct (no_change_percentage 4503599627370496 (-52) (avg (b :: bc)))
        as [[s ->] | ->]; reflexivity.
    + intros Ha. rewrite (Hfin Ha). reflexivity.
    + intros Ha. rewrite (Hinf Ha). reflexivity.
  - intros r [= <-] ->. cbn [length Nat.eqb Requirement.simStorAvg
                             Requirement.baseStorAvg Requirement.storDelta].
    split; [done|].
    set (c := dec 1 4). vm_compute in c. subst c.
    match goal with
    | |- context [Math_max (S754_finite false ?m ?e) ?a] =>
        destruct (no_change_percentage_finite m e a) as [Hfin Hinf]
    end.
    split; intros Ha; [rewrite (Hfin Ha) | rewrite (Hinf Ha)]; reflexivity.
Qed.

(** Both cases occur: a base storage series whose sum overflows has an
    infinite average. *)
Example capacityRequirement_overflow :
  let big := of_ratio (17 * 10 ^ 307) 1 in
  Requirement.storDelta
    <$> capacityRequirement
          (Some {| base_cpu := Some [of_Z 50]; simulated_cpu := None;
                   base_storage := Some [big; big]; simulated_storage := None |})
          None
  = Some "NaN"
  ∧ Requirement.storDelta
      <$> capacityRequirement
            (Some {| base_cpu := Some [of_Z 50]; simulated_cpu := None;
                     base_storage := Some [of_Z 2; of_Z 4]; simulated_storage := None |})
            None
    = Some "0.0".
Proof. split; vm_compute; reflexivity. Qed.

End WhatIfCharts.

Section LoadOutcomes.

Local Open Scope string_scope.
Import Observe ForecastsView LoadRenders.

Implicit Types (api : Api).

(** X10. Whatever the backend answers, [load] ends with the loading flag
    cleared.  The error left is the message of the first rejected request,
    and there is none exactly when both requests resolved (an error of an
    earlier load does not survive); then the forecast data is the
    [predictions] array of the response, else its [predictions_cpu] array,
    else the empty array, and the capacity data is the second response. *)
Theorem load_outcome api (s : Forecasts.State) :
  ∃ s', Forecasts.load api s = (inr tt, s')
        ∧ Forecasts.isLoading s' = false
        ∧ (Forecasts.error s' = None
           ↔ ∃ r c, fetchForecast7 api = Resolved r
                    ∧ fetchCapacityPlanning api (of_Z 10000) (of_Z 7) = Resolved c)
        ∧ (∀ r c, fetchForecast7 api = Resolved r →
                  fetchCapacityPlanning api (of_Z 10000) (of_Z 7) = Resolved c →
                  Forecasts.forecastData s'
                  = Some (default (default [] (predictions_cpu r)) (predictions r))
                  ∧ Forecasts.capacityData s' = Some c)
        ∧ (∀ r message, fetchForecast7 api = Resolved r →
                        fetchCapacityPlanning api (of_Z 10000) (of_Z 7) = Rejected message →
                        Forecasts.capacityData s' = Forecasts.capacityData s).
Proof.
  unfold Forecasts.load.
  cbv [mbind eff_bind Eff.bind Eff.try_catch_finally Eff.await Eff.set
       Forecasts.setIsLoading Forecasts.setError Forecasts.setForecastData
       Forecasts.setCapacityData].
  destruct (fetchForecast7 api) as [r|msg];
    [destruct (fetchCapacityPlanning api (of_Z 10000) (of_Z 7)) as [c|msg]|];
    eexists; (split; [reflexivity|]); cbn; repeat split; try done.
  - intros _. by exists r, c.
  - congruence.
  - congruence.
  - by intros (? & ? & _ & [=]).
  - by intros (? & ? & [=] & _).
Qed.

(** X11. Take a load that starts in a state without capacity data in
    which the alert effect raises nothing, as the initial state.  When the
    forecast request is rejected, the effect raises nothing in any state
    the view renders during the load: the zero placeholder forecast and the
    generated sample table trigger neither toast.  When the forecast
    request resolves and the capacity request is rejected, the effect
    raises nothing in the state the load ends in, and the only rendered
    state in which it can raise a toast is the one shown while the capacity
    request is pending, which holds the fetched predictions. *)
Theorem failed_load_alerts api (s : Forecasts.State) :
  Forecasts.capacityData s = None →
  alerts s = [] →
  (∀ message, fetchForecast7 api = Rejected message →
     ∀ s', s' ∈ load_renders api s → alerts s' = [])
  ∧ (∀ r message,
       fetchForecast7 api = Resolved r →
       fetchCapacityPlanning api (of_Z 10000) (of_Z 7) = Rejected message →
       alerts (Forecasts.load api s).2 = []
       ∧ ∀ s', s' ∈ load_renders api s → alerts s' ≠ [] →
           s' = {| Forecasts.forecastData :=
                     Some (default (default [] (predictions_cpu r)) (predictions r));
                   Forecasts.capacityData := None;
                   Forecasts.isLoading := true;
                   Forecasts.error := None |}).
Proof.
  intros Hcap Hquiet.
  assert (Hwait : alerts
            {| Forecasts.forecastData := Forecasts.forecastData s;
               Forecasts.capacityData := Forecasts.capacityData s;
               Forecasts.isLoading := true; Forecasts.error := None |} = []).
  { exact Hquiet. }
  split.
  - intros message Hf s'. unfold load_renders, Forecasts.load. rewrite Hf.
    cbv [mbind eff_bind Eff.bind Eff.try_catch_finally Eff.await Eff.set
         Forecasts.setIsLoading Forecasts.setError Forecasts.setForecastData
         Forecasts.setCapacityData snd].
    cbn [Forecasts.forecastData Forecasts.capacityData Forecasts.isLoading
         Forecasts.error].
    rewrite !elem_of_cons, elem_of_nil. intros [-> | [-> | [-> | []]]].
    + exact Hquiet.
    + exact Hwait.
    + unfold alerts. cbn [Forecasts.forecastData Forecasts.capacityData].
      rewrite Hcap. vm_compute. reflexivity.
  - intros r message Hf Hc.
    unfold load_renders, Forecasts.load. rewrite Hf.
    cbv [mbind eff_bind Eff.bind Eff.try_catch_finally Eff.await Eff.set
         Forecasts.setIsLoading Forecasts.setError Forecasts.setForecastData
         Forecasts.setCapacityData snd]. rewrite Hc.
    cbn [Forecasts.forecastData Forecasts.capacityData Forecasts.isLoading
         Forecasts.error snd].
    assert (Hfinal : alerts
              {| Forecasts.forecastData := Some (Forecasts.Array_fill_0 7);
                 Forecasts.capacityData := Forecasts.capacityData s;
                 Forecasts.isLoading := false;
                 Forecasts.error := Some message |} = []).
    { unfold alerts. cbn [Forecasts.forecastData Forecasts.capacityData].
      rewrite Hcap. vm_compute. reflexivity. }
    split; [exact Hfinal|].
    intros s'. rewrite !elem_of_cons, elem_of_nil.
    intros [-> | [-> | [-> | [-> | []]]]] Hne.
    + by destruct Hne.
    + by destruct Hne.
    + by rewrite Hcap.
    + by destruct Hne.
Qed.

Lemma failed_load_alerts_witness :
  Forall (λ s', alerts s' = [])
         (load_renders Sample_inputs.backend_down Forecasts.initial).
Proof.
  apply Forall_forall. intros s' Hs'.
  apply (proj1 (failed_load_alerts Sample_inputs.backend_down Forecasts.initial
                  eq_refl eq_refl) "Network Error" eq_refl s' Hs').
Defined.

(** A forecast ending above 80 raises the CPU toast while the capacity
    request is pending, also when that request is then rejected. *)
Example pending_capacity_request_alert :
  let api := {| fetchForecast7 :=
                  Resolved {| predictions := Some (replicate 7 (of_Z 90));
                              predictions_cpu := None |};
                fetchCapacityPlanning := λ _ _, Rejected "Network Error";
                fetchMultiRegion := Rejected "Network Error";
                fetchAlerts := λ _, Rejected "Network Error" |} in
  length <$> (alerts <$> load_renders api Forecasts.initial) = [0; 0; 1; 0]%nat.
Proof. vm_compute. reflexivity. Qed.

(** X12. The multi-region loader always ends with the loading flag cleared
    and never changes the selection when the captured selection is not
    empty, as is the case for the initial one.  On success the region list
    is the [regions] array of the response, or empty when it has none, and
    no error is left; with an empty captured selection and a non-empty
    region list the names of the first two regions become selected. *)
Theorem loadMultiRegionData_outcome api (selected : list string)
    (s : MultiRegionDashboard.State) :
  ∃ s', MultiRegionDashboard.loadMultiRegionData api selected s = (inr tt, s')
        ∧ MultiRegionDashboard.isLoading s' = false
        ∧ (selected ≠ [] →
           MultiRegionDashboard.selectedRegions s' = MultiRegionDashboard.selectedRegions s)
        ∧ (∀ r, fetchMultiRegion api = Resolved r →
                MultiRegionDashboard.allRegions s' = default [] (regions r)
                ∧ MultiRegionDashboard.error s' = None
                ∧ (selected = [] → default [] (regions r) ≠ [] →
                   MultiRegionDashboard.selectedRegions s'
                   = Region.name <$> take 2 (default [] (regions r)))).
Proof.
  unfold MultiRegionDashboard.loadMultiRegionData.
  cbv [mbind eff_bind Eff.bind Eff.try_catch_finally Eff.await Eff.set
       MultiRegionDashboard.setIsLoading MultiRegionDashboard.setError
       MultiRegionDashboard.setAllRegions].
  destruct (fetchMultiRegion api) as [r|msg].
  - destruct (default [] (regions r)) as [|r0 rs] eqn:Hregs;
      destruct selected as [|n0 sel]; cbn;
      eexists; (split; [reflexivity|]); cbn; repeat split; try done;
      match goal with H : Resolved _ = Resolved _ |- _ => injection H as <- end;
      rewrite ?Hregs; try done; by intros _ Hne.
  - eexists. split; [reflexivity|]. cbn. repeat split; done.
Qed.

End LoadOutcomes.

(** ** The operations never invent a NaN *)

Section NotNaN.

Local Open Scope Z_scope.

Lemma shr_1_nonneg (mrs : shr_record) : 0 ≤ shr_m mrs → 0 ≤ shr_m (shr_1 mrs).
Proof.
  destruct mrs as [m r s]. destruct m as [|[p|p|]|[p|p|]]; cbn; lia.
Qed.

Lemma iter_shr_1_nonneg (p : positive) (mrs : shr_record) :
  0 ≤ shr_m mrs → 0 ≤ shr_m (SpecFloat.iter_pos shr_1 p mrs).
Proof.
  revert mrs. induction p as [p IH|p IH|]; intros mrs Hm; cbn [SpecFloat.iter_pos].
  - apply IH, IH, shr_1_nonneg, Hm.
  - apply IH, IH, Hm.
  - apply shr_1_nonneg, Hm.
Qed.

Lemma shr_fexp_nonneg (m e : Z) (l : location) :
  0 ≤ m → 0 ≤ shr_m (fst (shr_fexp prec emax m e l)).
Proof.
  intros Hm. unfold shr_fexp, shr.
  assert (H0 : 0 ≤ shr_m (shr_record_of_loc m l)) by (by destruct l as [|[]]).
  destruct (fexp prec emax (Zdigits2 m + e) - e); cbn [fst]; try done.
  by apply iter_shr_1_nonneg.
Qed.

Lemma round_nearest_even_nonneg (m : Z) (l : location) :
  0 ≤ m → 0 ≤ round_nearest_even m l.
Proof.
  intros Hm. destruct l as [|[]]; cbn; try done; [destruct (Z.even m)|]; lia.
Qed.

Lemma binary_round_aux_not_nan (s : bool) (m e : Z) (l : location) :
  0 ≤ m → binary_round_aux prec emax s m e l ≠ NaN.
Proof.
  intros Hm. unfold binary_round_aux.
  pose proof (shr_fexp_nonneg m e l Hm) as H1.
  destruct (shr_fexp prec emax m e l) as [mrs e1]. cbn [fst] in H1.
  pose proof (shr_fexp_nonneg
                (round_nearest_even (shr_m mrs) (loc_of_shr_record mrs)) e1 loc_Exact
                (round_nearest_even_nonneg _ _ H1)) as H2.
  destruct (shr_fexp prec emax _ e1 loc_Exact) as [mrs' e2]. cbn [fst] in H2.
  destruct (shr_m mrs'); [done| |lia].
  by destruct (e2 <=? emax - prec).
Qed.

Lemma SFdiv_core_binary_nonneg (a e1 : Z) (d : positive) (e2 : Z) :
  0 ≤ a → 0 ≤ fst (fst (SFdiv_core_binary prec emax a e1 (Z.pos d) e2)).
Proof.
  intros Ha. unfold SFdiv_core_binary.
  set (m' := match _ - _ - _ with Z.pos _ => _ | Z0 => _ | Z.neg _ => _ end).
  assert (Hm' : 0 ≤ m').
  { subst m'. destruct (_ - _ - _); try done. by apply Z.shiftl_nonneg. }
  pose proof (Z.div_pos m' (Z.pos d) Hm' ltac:(lia)) as Hq.
  unfold Z.div in Hq.
  by destruct (Z.div_eucl m' (Z.pos d)) as [q r].
Qed.

Lemma of_ratio_not_nan (n : Z) (d : positive) : of_ratio n d ≠ NaN.
Proof.
  unfold of_ratio. destruct n as [|p|p]; [done| |].
  - pose proof (SFdiv_core_binary_nonneg (Z.pos p) 0 d 0 ltac:(lia)) as Hq.
    destruct (SFdiv_core_binary prec emax (Z.pos p) 0 (Z.pos d) 0) as [[q e] l].
    by apply binary_round_aux_not_nan.
  - pose proof (SFdiv_core_binary_nonneg (Z.pos p) 0 d 0 ltac:(lia)) as Hq.
    destruct (SFdiv_core_binary prec emax (Z.pos p) 0 (Z.pos d) 0) as [[q e] l].
    by apply binary_round_aux_not_nan.
Qed.

Lemma toFixed2_not_nan (x : number) : x ≠ NaN → toFixed2 x ≠ NaN.
Proof.
  destruct x as [s|s| |s m e]; try done.
  intros _. unfold toFixed2.
  destruct (_ <=? _); [done|]. destruct (_ =? 0); [done|].
  apply of_ratio_not_nan.
Qed.

(** A product by a finite constant other than zero is NaN only for NaN. *)
Lemma mul_constant_not_nan (x : number) (s : bool) (m : positive) (e : Z) :
  x ≠ NaN → (x * S754_finite s m e)%num ≠ NaN.
Proof.
  unfold Num.mul. destruct x as [sx|sx| |sx mx ex]; try done.
  intros _. cbn [SFmul]. by apply binary_round_aux_not_nan.
Qed.

Lemma or_else_not_nan (o : option number) (d : number) :
  d ≠ NaN → or_else o d ≠ NaN.
Proof.
  intros Hd. unfold or_else. destruct o as [v|]; [|done].
  by destruct v as [s|s| |s m e].
Qed.

End NotNaN.

Section MetricValues.

Local Open Scope string_scope.
Import Forecasts Observe.

Implicit Types (fd : option (list number)) (data : list number).

Lemma find_cpu_metric data :
  data ≠ [] →
  ∃ m, find (by_id "cpu") (metrics (Some data)) = Some m
       ∧ Metric.forecast m = toFixed2 <$> take 7 data.
Proof. destruct data; [done|]. by eexists. Qed.

Lemma find_storage_metric data :
  data ≠ [] →
  ∃ m, find (by_id "storage") (metrics (Some data)) = Some m
       ∧ Metric.forecast m
         = (λ cpu, toFixed2 (cpu * dec 1 2 * dec 25 1)%num) <$> (toFixed2 <$> take 7 data).
Proof. destruct data; [done|]. by eexists. Qed.

(** X13. The current value of each of the three metrics is never NaN,
    whatever the forecast data holds: a first prediction that is NaN (or
    zero) gives a current CPU value of 0, and the storage and network
    values are scaled from it. *)
Theorem current_never_NaN fd (m : Metric.t) :
  m ∈ metrics fd → Metric.current m ≠ NaN.
Proof.
  assert (Hcur : ∀ data, or_else ((toFixed2 <$> take 7 data) !! 0%nat) (of_Z 0) ≠ NaN)
    by (intros data; by apply or_else_not_nan).
  set (c001 := dec 1 2) in *. set (c25 := dec 25 1) in *. set (c10 := of_Z 10) in *.
  intros Hm. destruct fd as [[|v data]|]; cbn in Hm;
    repeat (apply elem_of_cons in Hm as [-> | Hm]; [try done|]);
    try (by apply not_elem_of_nil in Hm); cbn [Metric.current].
  - by apply (Hcur (v :: data)).
  - apply toFixed2_not_nan.
    fold c001 c25. vm_compute in c001, c25. subst c001 c25.
    apply mul_constant_not_nan, mul_constant_not_nan. by apply (Hcur (v :: data)).
  - apply toFixed2_not_nan.
    fold c10. vm_compute in c10. subst c10.
    apply mul_constant_not_nan. by apply (Hcur (v :: data)).
Qed.

Lemma current_never_NaN_witness :
  ∃ m, m ∈ metrics (Some [NaN; of_Z 3]) ∧ Metric.current m ≠ NaN.
Proof.
  assert (Hex : ∃ m, m ∈ metrics (Some [NaN; of_Z 3])) by (eexists; left).
  destruct Hex as [m Hm]. exists m. split; [exact Hm|].
  exact (current_never_NaN (Some [NaN; of_Z 3]) m Hm).
Defined.

(** X14. The "Remaining" slice of every metric's pie is never below zero,
    whatever the forecast data. *)
Theorem remaining_not_negative fd (m : Metric.t) (e : Metric.pie_entry) :
  m ∈ metrics fd → e ∈ Metric.pie m → Metric.name e = "Remaining" →
  lt (Metric.value e) (of_Z 0) = false.
Proof.
  assert (H0 : not_negative (of_Z 0) = true) by reflexivity.
  intros Hm He Hname. apply not_negative_lt_zero.
  destruct fd as [[|v data]|]; cbn in Hm;
    repeat (apply elem_of_cons in Hm as [-> | Hm]; [|]);
    try (by apply not_elem_of_nil in Hm);
    cbn in He;
    repeat (apply elem_of_cons in He as [-> | He]; [try done|]);
    try (by apply not_elem_of_nil in He);
    cbn [Metric.value]; by apply Math_max_not_negative.
Qed.

Lemma remaining_not_negative_witness :
  ∃ m e, m ∈ metrics (Some Sample_inputs.negative_first)
         ∧ e ∈ Metric.pie m ∧ Metric.name e = "Remaining"
         ∧ lt (Metric.value e) (of_Z 0) = false.
Proof.
  assert (Hex : ∃ m e, m ∈ metrics (Some Sample_inputs.negative_first)
                       ∧ e ∈ Metric.pie m ∧ Metric.name e = "Remaining").
  { eexists _, _. split; [left|]. split; [right; left | reflexivity]. }
  destruct Hex as (m & e & Hm & He & Hn).
  exists m, e. split; [exact Hm|]. split; [exact He|]. split; [exact Hn|].
  exact (remaining_not_negative _ m e Hm He Hn).
Defined.

(** X15. For non-empty forecast data the CPU alert looks at one value
    only: the last of the first 7 inputs (the 7th when there are at least
    7), rounded to 2 decimals.  The toast is raised exactly when that
    rounded value is above 80.  Without forecast data it is never
    raised. *)
Theorem cpu_alert_entry :
  (∀ data, data ≠ [] →
     (cpuAlert (metrics (Some data)) ≠ []
      ↔ ∃ v, last (take 7 data) = Some v ∧ gt (toFixed2 v) (of_Z 80) = true))
  ∧ cpuAlert (metrics None) = []
  ∧ cpuAlert (metrics (Some [])) = [].
Proof.
  split; [|split; vm_compute; reflexivity].
  intros data Hne. destruct (find_cpu_metric data Hne) as (m & Hm & Hf).
  unfold cpuAlert. rewrite Hm, Hf, fmap_last.
  destruct (last (take 7 data)) as [v|];
    cbn [fmap option_fmap option_map]; [|split; [done | by intros (? & [=] & _)]].
  destruct (gt (toFixed2 v) (of_Z 80)) eqn:Hgt.
  - split; [intros _; by exists v | done].
  - split; [done | intros (v' & [= <-] & Hgt'); congruence].
Qed.

(** A forecast of 80.004 is above 80 but rounds to 80 and raises nothing;
    80.006 rounds to 80.01 and raises the toast. *)
Example cpu_alert_rounding :
  gt (dec 80004 3) (of_Z 80) = true
  ∧ cpuAlert (metrics (Some (replicate 7 (dec 80004 3)))) = []
  ∧ cpuAlert (metrics (Some (replicate 7 (dec 80006 3)))) ≠ [].
Proof. vm_compute. repeat split; discriminate. Qed.

(** X16. For non-empty forecast data the what-if baselines do not depend
    on the deltas or on the backend response: the CPU baseline is the last
    of the first 7 inputs rounded to 2 decimals, and the storage baseline
    is that rounded value times 0.01 times 2.5, rounded again. *)
Theorem whatIf_baselines data (wd td : number) (wb : option WhatIfResponse) :
  data ≠ [] →
  ∃ v r, last (take 7 data) = Some v
         ∧ whatIfResults (metrics (Some data)) wd td wb = Some r
         ∧ baseCpu r = toFixed2 v
         ∧ baseStorage r = toFixed2 (toFixed2 v * dec 1 2 * dec 25 1)%num.
Proof.
  intros Hne.
  destruct (find_cpu_metric data Hne) as (mc & Hmc & Hfc).
  destruct (find_storage_metric data Hne) as (ms & Hms & Hfs).
  destruct (last (take 7 data)) as [v|] eqn:Hlast.
  2: { apply last_None in Hlast. destruct data; [done | discriminate]. }
  exists v. eexists. split; [done|].
  unfold whatIfResults. rewrite Hmc, Hms, Hfc, Hfs.
  split; [reflexivity|].
  cbn [baseCpu baseStorage]. rewrite !fmap_last, Hlast. done.
Qed.

Lemma whatIf_baselines_witness :
  ∃ v r, last (take 7 Sample_inputs.flat50) = Some v
         ∧ whatIfResults (metrics (Some Sample_inputs.flat50)) (of_Z 20) (of_Z 0) None
           = Some r
         ∧ baseCpu r = toFixed2 v.
Proof.
  destruct (whatIf_baselines Sample_inputs.flat50 (of_Z 20) (of_Z 0) None)
    as (v & r & Hv & Hr & Hb & _); [discriminate|].
  by exists v, r.
Defined.

End MetricValues.

Section RegionSelection.

Local Open Scope string_scope.
Import MultiRegionDashboard RegionCharts Sample_regions.

Implicit Types (name : string) (s : State) (r : Region.t)
  (visible : list Region.t).

(** X17. Toggling a name changes the visibility of the regions with that
    name only: a region of the list becomes visible if it has that name and
    was hidden, stays visible if it has another name and was visible, and
    is hidden otherwise.  The visible regions are always regions of the
    list. *)
Theorem toggle_visibility name s r :
  (r ∈ visibleRegions (handleToggleRegion name s)
   ↔ (Region.name r = name ∧ r ∈ allRegions s ∧ r ∉ visibleRegions s)
     ∨ (Region.name r ≠ name ∧ r ∈ visibleRegions s))
  ∧ (r ∈ visibleRegions s → r ∈ allRegions s).
Proof.
  unfold visibleRegions. rewrite !list_elem_of_filter.
  change (allRegions (handleToggleRegion name s)) with (allRegions s).
  rewrite elem_of_toggle.
  destruct (decide (Region.name r = name)) as [Heq | Hne].
  - rewrite Heq. split; [|tauto].
    destruct (decide (name ∈ selectedRegions s)); tauto.
  - split; tauto.
Qed.

Lemma get_assign_same key (v : cell) (obj : object) :
  key ≠ "__proto__" → get (assign key v obj) key = v.
Proof.
  intros Hk. apply String.eqb_neq in Hk. unfold get, assign. rewrite Hk.
  by rewrite lookup_insert_eq.
Qed.

Lemma get_assign_other key key' (v : cell) (obj : object) :
  key ≠ key' → get (assign key v obj) key' = get obj key'.
Proof.
  intros Hk. unfold get, assign.
  destruct (String.eqb key' "__proto__"); [done|].
  destruct (String.eqb key "__proto__"); [done|].
  by rewrite lookup_insert_ne.
Qed.

(** The point of the forecast chart at step [idx]. *)
Lemma chart_point_other visible (idx : nat) (acc : object) key :
  key ∉ Region.name <$> visible →
  get (foldl (λ point r,
                assign (Region.name r) (Value (padded (Region.forecast r) idx)) point)
             acc visible) key
  = get acc key.
Proof.
  revert acc. induction visible as [|r0 visible IH]; intros acc Hkey; [done|].
  cbn [foldl]. rewrite fmap_cons in Hkey. apply not_elem_of_cons in Hkey as [Hne Hkey].
  rewrite IH by done. by apply get_assign_other.
Qed.

Lemma chart_point_region visible (idx : nat) (acc : object) r :
  NoDup (Region.name <$> visible) → r ∈ visible → Region.name r ≠ "__proto__" →
  get (foldl (λ point r,
                assign (Region.name r) (Value (padded (Region.forecast r) idx)) point)
             acc visible) (Region.name r)
  = Value (padded (Region.forecast r) idx).
Proof.
  revert acc. induction visible as [|r0 visible IH]; intros acc Hnd Hin Hproto.
  { by apply not_elem_of_nil in Hin. }
  rewrite fmap_cons in Hnd. apply NoDup_cons in Hnd as [Hfresh Hnd].
  cbn [foldl]. apply elem_of_cons in Hin as [-> | Hin].
  - rewrite chart_point_other by done. by apply get_assign_same.
  - by apply IH.
Qed.

(** The rows of the second table are the chart points read back column
    by column. *)
Lemma export_steps visible (horizonSteps : nat) :
  NoDup (Region.name <$> visible) →
  "step" ∉ Region.name <$> visible →
  "__proto__" ∉ Region.name <$> visible →
  (λ row : object,
     get row "step"
     :: ((λ r, nullish (get row (Region.name r)) (Value (of_Z 0))) <$> visible))
    <$> forecastChartData visible horizonSteps
  = (λ idx, Text ("T+" +:+ pretty (idx + 1)%nat)
            :: ((λ r, Value (padded (Region.forecast r) idx)) <$> visible))
      <$> seq 0 (Nat.min horizonSteps 4).
Proof.
  intros Hnd Hstep Hproto. unfold forecastChartData, horizonLabels.
  rewrite fmap_imap, imap_fmap.
  apply list_eq. intros i. rewrite list_lookup_imap, list_lookup_fmap.
  destruct (seq 0 (Nat.min horizonSteps 4) !! i) as [j|] eqn:Hj; [|done].
  apply lookup_seq in Hj as [-> Hi].
  cbn [fmap option_fmap option_map compose Nat.add]. f_equal. f_equal.
  - rewrite chart_point_other by done.
    unfold get. cbn. by rewrite lookup_singleton_eq.
  - apply list_fmap_ext. intros k r Hr.
    apply list_elem_of_lookup_2 in Hr.
    rewrite chart_point_region; [done | done | done |].
    intros Hp. apply Hproto. rewrite <- Hp. by apply list_elem_of_fmap_2.
Qed.

(** X18. When the visible regions have pairwise different names, none of
    them "step" or "__proto__", the exported sheet is: the title row, the
    header and one row per region with its name, CPU and storage usage, an
    empty row, the second title row, the header "Step" followed by the
    region names, and one row per horizon step with the step label followed
    by each region's forecast at that step, padded with the region's last
    forecast value (or 0 for an empty forecast) beyond its end. *)
Theorem export_sheet visible (horizonSteps : nat) :
  NoDup (Region.name <$> visible) →
  "step" ∉ Region.name <$> visible →
  "__proto__" ∉ Region.name <$> visible →
  rows (handleExport visible horizonSteps)
  = ([Text "Multi-Region Capacity Comparison"]
     :: ([Text "Region"; Text "CPU (%)"; Text "Storage (TB)"]
         :: ((λ r, [Text (Region.name r); Value (Region.cpuUsage r);
                    Value (Region.storageUsage r)]) <$> visible))
     ++ [[]]
     ++ [Text "Forecast Demand (Relative Units)"]
     :: (Text "Step" :: ((λ r, Text (Region.name r)) <$> visible))
     :: ((λ idx, Text ("T+" +:+ pretty (idx + 1)%nat)
                 :: ((λ r, Value (padded (Region.forecast r) idx)) <$> visible))
           <$> seq 0 (Nat.min horizonSteps 4)))%list.
Proof.
  intros Hnd Hstep Hproto. unfold handleExport. cbn [rows].
  rewrite export_steps by done. unfold capacityChartData.
  by rewrite <- list_fmap_compose.
Qed.

Lemma export_sheet_witness :
  rows (handleExport two_regions 3) !! 9%nat
  = Some [Text "T+3"; Value (of_Z 2); Value (of_Z 0)].
Proof.
  rewrite (export_sheet two_regions 3).
  - reflexivity.
  - apply (bool_decide_unpack _). reflexivity.
  - apply (bool_decide_unpack _). reflexivity.
  - apply (bool_decide_unpack _). reflexivity.
Defined.

End RegionSelection.

Section Popover.

Import Header HeaderPopover.

Implicit Types (api : Api) (s : State).

(** X19. When a click on the bell has been handled the popover never
    shows "Loading".  If the click opened it, it shows "No alerts" for an
    empty notification list and the entries otherwise; after a failed fetch
    that is the single "unavailable" entry and the badge counts 1.  If the
    click closed it, it is hidden and the badge keeps its count; the
    "Close" button hides it in the same way. *)
Theorem popover_after_click api s :
  ∃ s', handleBellClick api s = (inr tt, s')
        ∧ popover s' ≠ Loading
        ∧ (showNotifications s = false →
           popover s' = (if (length (notifications s') =? 0)%nat then NoAlerts
                         else Entries (notifications s'))
           ∧ (∀ message, fetchAlerts api (of_Z 80) = Rejected message →
                popover s' = Entries [unavailable] ∧ badge s' = 1%nat))
        ∧ (showNotifications s = true →
           popover s' = Hidden ∧ badge s' = badge s
           ∧ closeClick s = (inr tt, s')).
Proof.
  unfold handleBellClick.
  cbv [mbind eff_bind Eff.bind Eff.try_catch_finally Eff.await Eff.set Eff.get
       setShowNotifications setNotifications setNotifLoading closeClick].
  destruct s as [[] ns loading]; cbn [negb showNotifications].
  - eexists. split; [reflexivity|]. repeat split; done.
  - destruct (fetchAlerts api (of_Z 80)) as [data|msg];
      eexists; (split; [reflexivity|]); unfold popover, badge; cbn;
      repeat split; try done; try (by destruct (length _ =? 0)%nat).
Qed.

End Popover.

Section Optimization.

Local Open Scope string_scope.
Import ForecastsView.

(** X20. No optimization request is made while there is no forecast data;
    otherwise one is made for a horizon of 7 and the given region.  A
    rejected request is swallowed: the handler completes and the
    optimization data, hence the recommendations shown, stay as they were.
    A resolved request replaces the optimization data by the response. *)
Theorem loadOpt_outcome
    (fetchOptimization : number → number → string → outcome OptimizationResponse)
    (fd : option (list number)) (region : string)
    (s : option OptimizationResponse) :
  ∃ s', loadOpt fetchOptimization fd region s = (inr tt, s')
        ∧ (optimizationRequest fd region = None ↔ fd = None ∨ fd = Some [])
        ∧ (optimizationRequest fd region = None → s' = s)
        ∧ (∀ c h g, optimizationRequest fd region = Some (c, h, g) →
             h = of_Z 7 ∧ g = region
             ∧ (∀ message, fetchOptimization c h g = Rejected message → s' = s)
             ∧ (∀ response, fetchOptimization c h g = Resolved response →
                  s' = Some response)).
Proof.
  unfold loadOpt.
  destruct (optimizationRequest fd region) as [[[c h] g]|] eqn:Hreq.
  - cbv [mbind eff_bind Eff.bind Eff.try_catch_finally Eff.await Eff.set mret eff_ret
         Eff.ret].
    assert (Hshape : h = of_Z 7 ∧ g = region ∧ fd ≠ None ∧ fd ≠ Some []).
    { unfold optimizationRequest in Hreq. destruct fd as [[|v data]|]; try done.
      by injection Hreq as _ <- <-. }
    destruct Hshape as (Hh & Hg & Hn & He).
    destruct (fetchOptimization c h g) as [resp|msg] eqn:Hf;
      eexists; (split; [reflexivity|]); (split; [split; [done | by intros [|]]|]);
      (split; [done|]); intros c' h' g' [= <- <- <-]; rewrite Hf;
      repeat split; try done; congruence.
  - exists s. split; [reflexivity|]. repeat split; try done.
    unfold optimizationRequest in Hreq. destruct fd as [[|v data]|]; auto. done.
Qed.

End Optimization.
